(** * directus-storage-drive-webdav: a shallow embedding of the WebDAV driver

  The repository holds two drivers for the Directus storage contract,
  [src/index.ts] (with the TUS chunked-upload operations) and
  [src/webdav.ts] (the plain one).  Both talk to a [WebDAVClient]; the
  client, Node's [Buffer] and [node:path] are external libraries.

  Conventions of the embedding:
  - a JavaScript string is a Rocq [string] holding its UTF-8 bytes, so
    [Buffer.from(str)] is the list of the string's bytes;
  - a [Buffer] is a [list byte]; a JavaScript number that counts bytes
    or positions is a [Z];
  - an [async] method is a program [Prog A]: a tree of client requests
    whose continuations receive either the rejection or the response,
    which is run against any client by [run];
  - a [Readable] is the finite list of the fragments it delivers. *)

From stdpp Require Import base strings list gmap pretty.
From Stdlib Require Import ZArith Strings.String Strings.Ascii Strings.Byte.

Open Scope Z_scope.

(** ** JavaScript strings and buffers *)

Module JS.

(** [s.replace(/\/$/, '')]: one [/] at the very end is removed. *)
Fixpoint stripTrailingSlash (s : string) : string :=
  match s with
  | EmptyString => EmptyString
  | String c EmptyString => if Ascii.eqb c "/" then EmptyString else s
  | String c s' => String c (stripTrailingSlash s')
  end.

(** [s.replace(/^\//, '')]: one [/] at the very start is removed. *)
Definition stripLeadingSlash (s : string) : string :=
  match s with
  | String c s' => if Ascii.eqb c "/" then s' else s
  | EmptyString => EmptyString
  end.

(** [s.replace(/^\/+/, '')]: every [/] at the start is removed. *)
Fixpoint stripLeadingSlashes (s : string) : string :=
  match s with
  | String c s' => if Ascii.eqb c "/" then stripLeadingSlashes s' else s
  | EmptyString => EmptyString
  end.

(** A template literal [`${n}`] for a number that is a safe integer
    ([Number.isSafeInteger], at most 2^53 - 1 in absolute value): there
    a number is an exact integer and is printed as its decimal numeral.
    Larger numbers, which JavaScript rounds and from 10^21 on prints
    with an exponent, are outside of what this function describes. *)
Definition numberToString (n : Z) : string := pretty n.

Definition Buffer : Type := list byte.

(** [Buffer.alloc(0)] *)
Definition Buffer_alloc0 : Buffer := [].

(** What a stream delivers, and what [getFileContents] may resolve to:
    a string, an [ArrayBuffer] or a [Buffer]. *)
Inductive Raw : Type :=
| RawString (s : string)
| RawArrayBuffer (b : list byte)
| RawBuffer (b : Buffer).

(** [Buffer.from(x)] for the three shapes: UTF-8 bytes of a string, a
    copy of the bytes otherwise. *)
Definition Buffer_from (x : Raw) : Buffer :=
  match x with
  | RawString s => list_byte_of_string s
  | RawArrayBuffer b => b
  | RawBuffer b => b
  end.

(** Node's [adjustOffset], which [Buffer.prototype.subarray] applies to
    both of its arguments: a negative index counts from the end, and
    every index is clamped to [0 .. length]. *)
Definition adjustOffset (offset length : Z) : Z :=
  if offset =? 0 then 0
  else if offset <? 0 then
    (if 0 <? offset + length then offset + length else 0)
  else if offset <? length then offset
  else length.

(** [buf.subarray(start, end)] *)
Definition subarray (buf : Buffer) (start end_ : Z) : Buffer :=
  let srcLength := Z.of_nat (List.length buf) in
  let start' := adjustOffset start srcLength in
  let end' := adjustOffset end_ srcLength in
  let newLength := if start' <? end' then end' - start' else 0 in
  take (Z.to_nat newLength) (drop (Z.to_nat start') buf).

(** [Buffer.concat(list)] *)
Definition Buffer_concat (bufs : list Buffer) : Buffer := List.concat bufs.

(** [buf.length] *)
Definition Buffer_length (buf : Buffer) : Z := Z.of_nat (List.length buf).

(** A [Readable] is the finite sequence of fragments it delivers. *)
Definition Readable : Type := list Raw.

(** [Readable.from(buf)]: a buffer is delivered as one fragment. *)
Definition Readable_from (buf : Buffer) : Readable := [RawBuffer buf].

(** The bytes a stream carries, fragment after fragment. *)
Definition drain (content : Readable) : Buffer :=
  Buffer_concat (map Buffer_from content).

(** [new Date(s)] and [new Date()], the latter reading the clock. *)
Inductive Date : Type :=
| DateOf (s : string)
| DateAt (clock : Z).

End JS.

(** ** node:path (POSIX) *)

Module NodePath.

(** The first segment of a path and the segments after it, where [/]
    separates segments. *)
Fixpoint split1 (s : string) : string * list string :=
  match s with
  | EmptyString => (EmptyString, [])
  | String c s' =>
      let '(seg, rest) := split1 s' in
      if Ascii.eqb c "/" then (EmptyString, seg :: rest)
      else (String c seg, rest)
  end.

(** [s.split('/')] *)
Definition split (s : string) : list string :=
  let '(seg, rest) := split1 s in seg :: rest.

(** [segs.join('/')] *)
Fixpoint join (segs : list string) : string :=
  match segs with
  | [] => EmptyString
  | [seg] => seg
  | seg :: rest => seg +:+ "/" +:+ join rest
  end.

(** Modelled from the spec: [node:path] is not part of the repository;
    the spec (4.1) calls [relative] the standard relative-path
    resolution in which [.] and [..] segments of either input are
    resolved.  This is Node's [normalizeString] for an absolute path
    ([allowAboveRoot = false]) on segments: empty and [.] segments are
    dropped, [..] removes the segment before it, if there is one. *)
Fixpoint normalizeSegs (acc segs : list string) : list string :=
  match segs with
  | [] => acc
  | seg :: rest =>
      if String.eqb seg "" || String.eqb seg "." then normalizeSegs acc rest
      else if String.eqb seg ".." then normalizeSegs (removelast acc) rest
      else normalizeSegs (acc ++ [seg]) rest
  end.

Definition isAbsolute (p : string) : bool :=
  match p with
  | String c _ => Ascii.eqb c "/"
  | EmptyString => false
  end.

(** Modelled from the spec: [path.resolve(p)] with one argument, as the
    segments of the absolute path it returns ([cwd] is the absolute
    path of the working directory): an absolute [p] stands for itself,
    an empty [p] for [cwd], any other [p] for [cwd/p]. *)
Definition resolveSegs (cwd p : string) : list string :=
  normalizeSegs []
    (split (if String.eqb p "" then cwd
            else if isAbsolute p then p
            else cwd +:+ "/" +:+ p)).

(** [path.resolve(p)] as a string. *)
Definition resolve (cwd p : string) : string :=
  "/" +:+ join (resolveSegs cwd p).

(** The segments of [from] and of [to] that follow their longest
    common prefix. *)
Fixpoint dropCommon (from to : list string) : list string * list string :=
  match from, to with
  | f :: from', t :: to' =>
      if String.eqb f t then dropCommon from' to' else (from, to)
  | _, _ => (from, to)
  end.

(** Modelled from the spec: [path.relative(from, to)]: both paths are
    resolved, one [..] is written for each segment of [from] below the
    common prefix, and then the segments of [to] below it. *)
Definition relative (cwd from to : string) : string :=
  if String.eqb from to then EmptyString
  else
    let '(up, down) := dropCommon (resolveSegs cwd from) (resolveSegs cwd to) in
    join (map (fun _ => "..") up ++ down).

End NodePath.

(** ** The WebDAV client, as the driver sees it *)

Module WebDAV.

(** [FileStat.type] *)
Inductive FileType : Type := file | directory.

(** The fields of a [FileStat] of the [webdav] package that the drivers
    read.  [filename] is [None] when the field is not a string (the
    drivers test [typeof item.filename === 'string']); [lastmod] and
    [size] are [None] when the backend left them out ([undefined] or
    [null]). *)
Record FileStat : Type := {
  filename : option string;
  lastmod : option string;
  size : option Z;
  type : FileType
}.

(** A response is the payload itself or an envelope [{ data: ... }]. *)
Inductive Response (T : Type) : Type :=
| Envelope (data : T)
| Plain (value : T).
Arguments Envelope {T} data.
Arguments Plain {T} value.

(** The second argument of [putFileContents]. *)
Inductive PutData : Type :=
| PutStream (content : JS.Readable)
| PutBuffer (content : JS.Buffer).

Definition Headers : Type := list (string * string).

(** The methods of [WebDAVClient] the drivers call, with their
    arguments. *)
Inductive Request : Type :=
| createReadStream (path : string) (headers : option Headers)
| stat (path : string)
| moveFile (src dest : string)
| copyFile (src dest : string)
| putFileContents (path : string) (data : PutData)
| deleteFile (path : string)
| getDirectoryContents (path : string) (deep : bool)
| getFileContents (path : string) (format : string).

(** What each method resolves to. *)
Definition Resp (q : Request) : Type :=
  match q with
  | createReadStream _ _ => JS.Readable
  | stat _ => Response FileStat
  | moveFile _ _ => unit
  | copyFile _ _ => unit
  | putFileContents _ _ => bool
  | deleteFile _ => unit
  | getDirectoryContents _ _ => Response (list FileStat)
  | getFileContents _ _ => Response JS.Raw
  end.

(** What a method is rejected with. *)
Inductive DavError : Type :=
| NotFound
| Forbidden
| NetworkError (message : string)
| HttpError (status : Z).

(** An asynchronous computation over the client: it returns, throws,
    or issues a request and continues with its outcome. *)
Inductive Prog (A : Type) : Type :=
| Ret (a : A)
| Throw (e : DavError)
| Do (q : Request) (k : DavError + Resp q -> Prog A).
Arguments Ret {A} a.
Arguments Throw {A} e.
Arguments Do {A} q k.

(** [await this.client.m(...)] outside a [try]: a rejection is
    rethrown. *)
Definition await (q : Request) : Prog (Resp q) :=
  Do q (fun r => match r with inl e => Throw e | inr v => Ret v end).

Fixpoint bind {A B : Type} (p : Prog A) (f : A -> Prog B) : Prog B :=
  match p with
  | Ret a => f a
  | Throw e => Throw e
  | Do q k => Do q (fun r => bind (k r) f)
  end.

(** A client answers every request from its state, which the request
    may change. *)
Class Client (St : Type) : Type :=
  handle : forall q : Request, St -> (DavError + Resp q) * St.

(** Running a program against a client: the outcome, the final state
    of the client and the requests issued, in order. *)
Fixpoint run {St : Type} `{Client St} {A : Type} (p : Prog A) (s : St)
  : (DavError + A) * St * list Request :=
  match p with
  | Ret a => (inr a, s, [])
  | Throw e => (inl e, s, [])
  | Do q k =>
      let '(r, s') := handle q s in
      let '(out, s'', issued) := run (k r) s' in
      (out, s'', q :: issued)
  end.

(** The payload of a response and the bytes of a [putFileContents]
    argument, as a backend reads them. *)
Definition payload {T : Type} (r : Response T) : T :=
  match r with Envelope d => d | Plain v => v end.

Definition putBytes (d : PutData) : JS.Buffer :=
  match d with
  | PutStream content => JS.drain content
  | PutBuffer content => content
  end.

(** A client that faithfully stores what is written, with no other
    writer: [content s p] is the object at [p] in state [s]. *)
Class FaithfulStore (St : Type) `{Client St} : Type := {
  content : St -> string -> option JS.Buffer;
  getFileContents_stored : forall s p c,
    content s p = Some c ->
    exists r, handle (getFileContents p "binary") s = (inr r, s)
              /\ JS.Buffer_from (payload r) = c;
  putFileContents_stores : forall s p d,
    exists s', handle (putFileContents p d) s = (inr true, s')
               /\ content s' p = Some (putBytes d)
               /\ forall p', p' <> p -> content s' p' = content s p';
  stat_stored : forall s p c,
    content s p = Some c ->
    exists r, handle (stat p) s = (inr r, s)
              /\ size (payload r) = Some (JS.Buffer_length c)
}.

End WebDAV.

#[global] Instance Prog_ret : MRet WebDAV.Prog := @WebDAV.Ret.
#[global] Instance Prog_bind : MBind WebDAV.Prog :=
fun A B f p => WebDAV.bind p f.

(** ** @directus/storage: the types of the driver contract both files use *)

Module Storage.

(** Modelled from the spec: the declarations of [ReadOptions] and of
    its range belong to the host package, which is not part of the
    repository; the spec (4.2) gives [options.range = {start, end?}].
    Both are numbers, here integers. *)
Record Range : Type := { start : Z; end_ : option Z }.
Record ReadOptions : Type := { range : option Range }.

(** What [stat] resolves to: the object [{ size, modified }] both files
    build. *)
Record Stat : Type := { size : Z; modified : JS.Date }.

End Storage.

(** ** src/index.ts: the driver with chunked (TUS) uploads *)

Module Index.
Import JS Storage.

Record DriverWebDAVConfig : Type := {
  baseUrl : string;
  username : string;
  password : string;
  config_root : option string
}.

(** The driver keeps the client, which here is whatever [WebDAV.run]
    runs the programs against, and [root]. *)
Record DriverWebDAV : Type := { root : string }.

(** [this.root = config.root ?? '/'] *)
Definition new (config : DriverWebDAVConfig) : DriverWebDAV :=
  {| root := match config_root config with Some r => r | None => "/" end |}.

Definition fullPath (this : DriverWebDAV) (filepath : string) : string :=
  stripTrailingSlash (root this) +:+ "/" +:+ stripLeadingSlash filepath.

Definition read (this : DriverWebDAV) (filepath : string)
    (options : option ReadOptions) : WebDAV.Prog Readable :=
  let remotePath := fullPath this filepath in
  match options ≫= range with
  | Some r =>
      let headers : WebDAV.Headers :=
        [("Range",
          "bytes=" +:+ numberToString (start r) +:+ "-" +:+
          match end_ r with Some e => numberToString e | None => "" end)] in
      WebDAV.await (WebDAV.createReadStream remotePath (Some headers))
  | None => WebDAV.await (WebDAV.createReadStream remotePath None)
  end.

(** [now] is what the clock reads when [new Date()] is evaluated.  An
    empty [lastmod] is falsy, as a missing one is. *)
Definition stat (this : DriverWebDAV) (now : Z) (filepath : string)
  : WebDAV.Prog Stat :=
  let remotePath := fullPath this filepath in
  stat ← WebDAV.await (WebDAV.stat remotePath);
  let fileStat :=
    match stat with
    | WebDAV.Envelope data => data
    | WebDAV.Plain plain => plain
    end in
  mret {|
    size := match WebDAV.size fileStat with Some n => n | None => 0 end;
    modified :=
      match WebDAV.lastmod fileStat with
      | Some l => if String.eqb l "" then DateAt now else DateOf l
      | None => DateAt now
      end
  |}.

Definition exists_ (this : DriverWebDAV) (filepath : string)
  : WebDAV.Prog bool :=
  let remotePath := fullPath this filepath in
  WebDAV.Do (WebDAV.stat remotePath)
    (fun r => match r with inr _ => mret true | inl _ => mret false end).

Definition move (this : DriverWebDAV) (src dest : string)
  : WebDAV.Prog unit :=
  WebDAV.await (WebDAV.moveFile (fullPath this src) (fullPath this dest)).

Definition copy (this : DriverWebDAV) (src dest : string)
  : WebDAV.Prog unit :=
  WebDAV.await (WebDAV.copyFile (fullPath this src) (fullPath this dest)).

Definition write (this : DriverWebDAV) (filepath : string)
    (content : Readable) : WebDAV.Prog unit :=
  let remotePath := fullPath this filepath in
  _ ← WebDAV.await (WebDAV.putFileContents remotePath (WebDAV.PutStream content));
  mret tt.

Definition delete (this : DriverWebDAV) (filepath : string)
  : WebDAV.Prog unit :=
  WebDAV.await (WebDAV.deleteFile (fullPath this filepath)).

(** The two statements under the [if] of the loop of [list]: from a
    backend filename to what is yielded.  [cwd] is the working
    directory of the process, which [relative] resolves against. *)
Definition denormalize (this : DriverWebDAV) (cwd : string)
    (filename : string) : string :=
  let relativePath := NodePath.relative cwd (root this) filename in
  stripLeadingSlashes relativePath.

(** The [for] loop of [list] over the whole listing: what the
    generator yields, in order. *)
Fixpoint yields (this : DriverWebDAV) (cwd : string)
    (contents : list WebDAV.FileStat) : list string :=
  match contents with
  | [] => []
  | item :: rest =>
      match WebDAV.type item, WebDAV.filename item with
      | WebDAV.file, Some filename =>
          denormalize this cwd filename :: yields this cwd rest
      | _, _ => yields this cwd rest
      end
  end.

(** [prefix] is [None] when the argument is left out.  The result is
    the sequence the generator yields. *)
Definition list (this : DriverWebDAV) (cwd : string)
    (prefix : option string) : WebDAV.Prog (list string) :=
  let remotePrefix :=
    fullPath this (match prefix with Some p => p | None => "" end) in
  res ← WebDAV.await (WebDAV.getDirectoryContents remotePrefix true);
  let contents :=
    match res with
    | WebDAV.Envelope data => data
    | WebDAV.Plain plain => plain
    end in
  mret (yields this cwd contents).

Definition tusExtensions (this : DriverWebDAV) : Datatypes.list string :=
  ["creation"; "termination"; "expiration"].

Definition createChunkedUpload {ChunkedUploadContext : Type}
    (this : DriverWebDAV) (filepath : string)
    (context : ChunkedUploadContext) : WebDAV.Prog ChunkedUploadContext :=
  let emptyStream := Readable_from Buffer_alloc0 in
  _ ← write this filepath emptyStream;
  mret context.

Definition writeChunk {ChunkedUploadContext : Type}
    (this : DriverWebDAV) (filepath : string) (content : Readable)
    (offset : Z) (_context : ChunkedUploadContext) : WebDAV.Prog Z :=
  let remotePath := fullPath this filepath in
  existing ← WebDAV.await (WebDAV.getFileContents remotePath "binary");
  let existingRaw :=
    match existing with
    | WebDAV.Envelope data => data
    | WebDAV.Plain plain => plain
    end in
  let existingBuffer :=
    match existingRaw with
    | RawString s => Buffer_from (RawString s)
    | RawArrayBuffer b => Buffer_from (RawArrayBuffer b)
    | RawBuffer b => b
    end in
  let chunks := map Buffer_from content in
  let newContent :=
    Buffer_concat (subarray existingBuffer 0 offset :: chunks) in
  _ ← WebDAV.await (WebDAV.putFileContents remotePath (WebDAV.PutBuffer newContent));
  mret (Buffer_length newContent).

Definition deleteChunkedUpload {ChunkedUploadContext : Type}
    (this : DriverWebDAV) (filepath : string)
    (_context : ChunkedUploadContext) : WebDAV.Prog unit :=
  delete this filepath.

Definition finishChunkedUpload {ChunkedUploadContext : Type}
    (this : DriverWebDAV) (_filepath : string)
    (_context : ChunkedUploadContext) : WebDAV.Prog unit :=
  mret tt.

End Index.

(** ** src/webdav.ts: the plain driver *)

Module Webdav.
Import JS Storage.

Record DriverWebDAVConfig : Type := {
  baseUrl : string;
  username : string;
  password : string;
  config_root : option string
}.

(** The driver keeps the client, which here is whatever [WebDAV.run]
    runs the programs against, and [root]. *)
Record DriverWebDAV : Type := { root : string }.

(** [this.root = config.root ?? '/'] *)
Definition new (config : DriverWebDAVConfig) : DriverWebDAV :=
  {| root := match config_root config with Some r => r | None => "/" end |}.

Definition fullPath (this : DriverWebDAV) (filepath : string) : string :=
  stripTrailingSlash (root this) +:+ "/" +:+ stripLeadingSlash filepath.

Definition read (this : DriverWebDAV) (filepath : string)
    (options : option ReadOptions) : WebDAV.Prog Readable :=
  let remotePath := fullPath this filepath in
  match options ≫= range with
  | Some r =>
      let headers : WebDAV.Headers :=
        [("Range",
          "bytes=" +:+ numberToString (start r) +:+ "-" +:+
          match end_ r with Some e => numberToString e | None => "" end)] in
      WebDAV.await (WebDAV.createReadStream remotePath (Some headers))
  | None => WebDAV.await (WebDAV.createReadStream remotePath None)
  end.

(** [now] is what the clock reads when [new Date()] is evaluated.  An
    empty [lastmod] is falsy, as a missing one is. *)
Definition stat (this : DriverWebDAV) (now : Z) (filepath : string)
  : WebDAV.Prog Stat :=
  let remotePath := fullPath this filepath in
  stat ← WebDAV.await (WebDAV.stat remotePath);
  let fileStat :=
    match stat with
    | WebDAV.Envelope data => data
    | WebDAV.Plain plain => plain
    end in
  mret {|
    size := match WebDAV.size fileStat with Some n => n | None => 0 end;
    modified :=
      match WebDAV.lastmod fileStat with
      | Some l => if String.eqb l "" then DateAt now else DateOf l
      | None => DateAt now
      end
  |}.

Definition exists_ (this : DriverWebDAV) (filepath : string)
  : WebDAV.Prog bool :=
  let remotePath := fullPath this filepath in
  WebDAV.Do (WebDAV.stat remotePath)
    (fun r => match r with inr _ => mret true | inl _ => mret false end).

Definition move (this : DriverWebDAV) (src dest : string)
  : WebDAV.Prog unit :=
  WebDAV.await (WebDAV.moveFile (fullPath this src) (fullPath this dest)).

Definition copy (this : DriverWebDAV) (src dest : string)
  : WebDAV.Prog unit :=
  WebDAV.await (WebDAV.copyFile (fullPath this src) (fullPath this dest)).

Definition write (this : DriverWebDAV) (filepath : string)
    (content : Readable) : WebDAV.Prog unit :=
  let remotePath := fullPath this filepath in
  _ ← WebDAV.await (WebDAV.putFileContents remotePath (WebDAV.PutStream content));
  mret tt.

Definition delete (this : DriverWebDAV) (filepath : string)
  : WebDAV.Prog unit :=
  WebDAV.await (WebDAV.deleteFile (fullPath this filepath)).

(** The two statements under the [if] of the loop of [list]: from a
    backend filename to what is yielded.  [cwd] is the working
    directory of the process, which [relative] resolves against. *)
Definition denormalize (this : DriverWebDAV) (cwd : string)
    (filename : string) : string :=
  let relativePath := NodePath.relative cwd (root this) filename in
  stripLeadingSlashes relativePath.

(** The [for] loop of [list] over the whole listing: what the
    generator yields, in order. *)
Fixpoint yields (this : DriverWebDAV) (cwd : string)
    (contents : list WebDAV.FileStat) : list string :=
  match contents with
  | [] => []
  | item :: rest =>
      match WebDAV.type item, WebDAV.filename item with
      | WebDAV.file, Some filename =>
          denormalize this cwd filename :: yields this cwd rest
      | _, _ => yields this cwd rest
      end
  end.

(** [prefix] is [None] when the argument is left out.  The result is
    the sequence the generator yields. *)
Definition list (this : DriverWebDAV) (cwd : string)
    (prefix : option string) : WebDAV.Prog (list string) :=
  let remotePrefix :=
    fullPath this (match prefix with Some p => p | None => "" end) in
  res ← WebDAV.await (WebDAV.getDirectoryContents remotePrefix true);
  let contents :=
    match res with
    | WebDAV.Envelope data => data
    | WebDAV.Plain plain => plain
    end in
  mret (yields this cwd contents).

End Webdav.

(** ** An in-memory client

  A WebDAV server reduced to a map from remote paths to contents.  It
  answers [stat], whole-file reads and writes, [deleteFile],
  [moveFile] and [copyFile]; ranged reads and directory listings are
  refused with status 501.  [detailed] says whether responses come in
  an envelope, [arrayBuffers] whether binary contents come as an
  [ArrayBuffer] rather than a [Buffer]. *)

Module MemDav.
Import JS WebDAV.

Record State : Type := {
  files : gmap string (list byte);
  detailed : bool;
  arrayBuffers : bool
}.

Definition withFiles (s : State) (fs : gmap string (list byte)) : State :=
  {| files := fs; detailed := detailed s; arrayBuffers := arrayBuffers s |}.

Definition respond {T : Type} (s : State) (v : T) : Response T :=
  if detailed s then Envelope v else Plain v.

Definition contents (s : State) (fmt : string) (c : list byte) : Raw :=
  if String.eqb fmt "text" then RawString (string_of_list_byte c)
  else if arrayBuffers s then RawArrayBuffer c
  else RawBuffer c.

Definition rejected {R : Type} (e : DavError) (s : State)
  : (DavError + R) * State := (inl e, s).

Definition resolved {R : Type} (v : R) (s : State)
  : (DavError + R) * State := (inr v, s).

Definition serve (q : Request) (s : State) : (DavError + Resp q) * State :=
  match q as q' return (DavError + Resp q') * State with
  | createReadStream p None =>
      match files s !! p with
      | Some c => resolved [RawBuffer c] s
      | None => rejected NotFound s
      end
  | createReadStream p (Some _) => rejected (HttpError 501) s
  | stat p =>
      match files s !! p with
      | Some c =>
          resolved (respond s {| filename := Some p; lastmod := None;
                                 size := Some (Buffer_length c);
                                 type := file |}) s
      | None => rejected NotFound s
      end
  | moveFile src dest =>
      match files s !! src with
      | Some c =>
          resolved tt (withFiles s (<[dest := c]> (delete src (files s))))
      | None => rejected NotFound s
      end
  | copyFile src dest =>
      match files s !! src with
      | Some c => resolved tt (withFiles s (<[dest := c]> (files s)))
      | None => rejected NotFound s
      end
  | putFileContents p d =>
      resolved true (withFiles s (<[p := putBytes d]> (files s)))
  | deleteFile p =>
      match files s !! p with
      | Some _ => resolved tt (withFiles s (delete p (files s)))
      | None => rejected NotFound s
      end
  | getDirectoryContents _ _ => rejected (HttpError 501) s
  | getFileContents p fmt =>
      match files s !! p with
      | Some c => resolved (respond s (contents s fmt c)) s
      | None => rejected NotFound s
      end
  end.

#[global] Instance client : Client State := serve.

(** The in-memory client stores faithfully, whichever way it presents
    its responses. *)
#[global] Instance faithful : FaithfulStore State.
Proof.
  refine {| content := fun s p => files s !! p |}.
  - intros s p c Hc. eexists. split.
    + unfold handle, client, serve. unfold Buffer in *. rewrite Hc. reflexivity.
    + unfold respond, contents. simpl.
      destruct (detailed s), (arrayBuffers s); reflexivity.
  - intros s p d. eexists. split; [reflexivity|]. split.
    + apply lookup_insert_eq.
    + intros p' Hp'. simpl. now rewrite lookup_insert_ne.
  - intros s p c Hc. eexists. split.
    + unfold handle, client, serve. unfold Buffer in *. rewrite Hc. reflexivity.
    + unfold respond. destruct (detailed s); reflexivity.
Defined.

End MemDav.

(** ** A client with canned answers

    It answers [stat] and [getDirectoryContents] with what its state
    holds, whatever the path, and refuses everything else as a broken
    connection does. *)

Module Canned.
Import WebDAV.

Record State : Type := {
  statAnswer : DavError + Response FileStat;
  listing : DavError + Response (list FileStat)
}.

Definition serve (q : Request) (s : State) : (DavError + Resp q) * State :=
  match q as q' return (DavError + Resp q') * State with
  | stat _ => (statAnswer s, s)
  | getDirectoryContents _ _ => (listing s, s)
  | createReadStream _ _ => (inl (NetworkError "ECONNREFUSED"), s)
  | moveFile _ _ => (inl (NetworkError "ECONNREFUSED"), s)
  | copyFile _ _ => (inl (NetworkError "ECONNREFUSED"), s)
  | putFileContents _ _ => (inl (NetworkError "ECONNREFUSED"), s)
  | deleteFile _ => (inl (NetworkError "ECONNREFUSED"), s)
  | getFileContents _ _ => (inl (NetworkError "ECONNREFUSED"), s)
  end.

#[global] Instance client : Client State := serve.

(** Every request is refused. *)
Definition offline : State :=
  {| statAnswer := inl (NetworkError "ECONNREFUSED");
     listing := inl (NetworkError "ECONNREFUSED") |}.

End Canned.

(** ** Predicates on caller paths *)

Module Paths.

(** A segment that names something: not empty, not [.], not [..]. *)
Definition normalSegment (seg : string) : bool :=
  negb (String.eqb seg "") && negb (String.eqb seg ".")
  && negb (String.eqb seg "..").

(** A path that is empty or made of normal segments only. *)
Definition cleanPath (q : string) : bool :=
  String.eqb q "" || forallb normalSegment (NodePath.split q).

(** A path with no [..] segment. *)
Definition noDotDot (p : string) : bool :=
  forallb (fun seg => negb (String.eqb seg "..")) (NodePath.split p).

(** The segments of a clean path. *)
Definition segments (q : string) : list string :=
  if String.eqb q "" then [] else NodePath.split q.

End Paths.

(** ** What a directory listing reports *)

Module Listing.


End Listing.

(** ** Concrete drivers and backends *)

Module Fixtures.
Import JS WebDAV.

Definition uploads : Index.DriverWebDAV := {| Index.root := "/uploads/" |}.

(** An upload that was created and has no bytes yet; the server answers
    in envelopes and with [ArrayBuffer]s. *)
Definition emptyUpload : MemDav.State :=
  {| MemDav.files := {[ "/uploads/video.bin" := [] ]};
     MemDav.detailed := true;
     MemDav.arrayBuffers := true |}.

(** An object of three bytes; the server answers plainly, with
    [Buffer]s. *)
Definition threeBytes : MemDav.State :=
  {| MemDav.files := {[ "/uploads/video.bin" := [x01; x02; x03]%byte ]};
     MemDav.detailed := false;
     MemDav.arrayBuffers := false |}.

(** A chunk that arrives as a buffer and a string. *)
Definition chunkA : Readable := [RawBuffer [x0a; x0b]%byte; RawString "hi"].

Definition chunkB : Readable := [RawArrayBuffer [xff]%byte].

(** A [stat] answer in an envelope, with neither size nor date. *)
Definition bareStat : Canned.State :=
  {| Canned.statAnswer :=
       inr (Envelope {| filename := Some "/uploads/video.bin"; lastmod := None;
                        size := None; type := file |});
     Canned.listing := inl NotFound |}.

Definition entry (ty : FileType) (name : string) : FileStat :=
  {| filename := Some name; lastmod := Some "Mon, 01 Jan 2024 00:00:00 GMT";
     size := Some 1; type := ty |}.

(** Three files and one directory below the root, in an envelope. *)
Definition tree : Canned.State :=
  {| Canned.statAnswer := inl NotFound;
     Canned.listing :=
       inr (Envelope [entry file "/uploads/a.txt";
                      entry directory "/uploads/docs";
                      entry file "/uploads/docs/b.txt";
                      entry file "/uploads/docs/c.txt"]) |}.

End Fixtures.

(** ** Removing, moving and copying on a faithful store *)

Module Files.
Import JS WebDAV.

(** What a client that stores faithfully does besides reading and
    writing: a missing object cannot be read or described, [deleteFile]
    removes an object, [moveFile] and [copyFile] carry its content to
    the destination. *)
Class FaithfulFiles (St : Type) `{FaithfulStore St} : Prop := {
  stat_missing : forall s p,
    content s p = None -> exists e, handle (stat p) s = (inl e, s);
  getFileContents_missing : forall s p fmt,
    content s p = None ->
    exists e, handle (getFileContents p fmt) s = (inl e, s);
  deleteFile_removes : forall s p c,
    content s p = Some c ->
    exists s', handle (deleteFile p) s = (inr tt, s')
               /\ content s' p = None
               /\ forall p', p' <> p -> content s' p' = content s p';
  moveFile_moves : forall s src dest c,
    content s src = Some c ->
    exists s', handle (moveFile src dest) s = (inr tt, s')
               /\ content s' dest = Some c
               /\ (src <> dest -> content s' src = None);
  copyFile_copies : forall s src dest c,
    content s src = Some c ->
    exists s', handle (copyFile src dest) s = (inr tt, s')
               /\ content s' dest = Some c
               /\ forall p', p' <> dest -> content s' p' = content s p'
}.

#[global] Instance memdav : FaithfulFiles MemDav.State.
Proof.
  split.
  - intros s p Hp. exists NotFound. simpl in Hp.
    unfold handle, MemDav.client, MemDav.serve. unfold Buffer in *.
    now rewrite Hp.
  - intros s p fmt Hp. exists NotFound. simpl in Hp.
    unfold handle, MemDav.client, MemDav.serve. unfold Buffer in *.
    now rewrite Hp.
  - intros s p c Hp. simpl in Hp. eexists. split; [|split].
    + unfold handle, MemDav.client, MemDav.serve. unfold Buffer in *.
      rewrite Hp. reflexivity.
    + apply lookup_delete_eq.
    + intros p' Hp'. simpl. now rewrite lookup_delete_ne.
  - intros s src dest c Hp. simpl in Hp. eexists. split; [|split].
    + unfold handle, MemDav.client, MemDav.serve. unfold Buffer in *.
      rewrite Hp. reflexivity.
    + apply lookup_insert_eq.
    + intros Hne. simpl. rewrite lookup_insert_ne by congruence.
      apply lookup_delete_eq.
  - intros s src dest c Hp. simpl in Hp. eexists. split; [|split].
    + unfold handle, MemDav.client, MemDav.serve. unfold Buffer in *.
      rewrite Hp. reflexivity.
    + apply lookup_insert_eq.
    + intros p' Hp'. simpl. now rewrite lookup_insert_ne.
Qed.

End Files.

(** ** A host that uploads in chunks *)

Module Host.
Import JS.

(** The chunks are sent in order with [writeChunk], the first at
    [offset] and each next one at the size the call before returned;
    the result is the size after the last chunk. *)
Fixpoint uploadChunks {ChunkedUploadContext : Type}
    (this : Index.DriverWebDAV) (filepath : string)
    (chunks : list Readable) (offset : Z) (context : ChunkedUploadContext)
  : WebDAV.Prog Z :=
  match chunks with
  | [] => mret offset
  | chunk :: rest =>
      size ← Index.writeChunk this filepath chunk offset context;
      uploadChunks this filepath rest size context
  end.

End Host.

(** ** A client that serves one text and refuses every change *)

Module ReadOnly.
Import JS WebDAV.

(** The state is the text every path holds; reads resolve to it, plainly
    and as a string, and every other request is refused as forbidden. *)
Definition serve (q : Request) (s : string) : (DavError + Resp q) * string :=
  match q as q' return (DavError + Resp q') * string with
  | getFileContents _ _ => (inr (Plain (RawString s)), s)
  | createReadStream _ _ => (inr [RawString s], s)
  | stat _ => (inl Forbidden, s)
  | getDirectoryContents _ _ => (inl Forbidden, s)
  | moveFile _ _ => (inl Forbidden, s)
  | copyFile _ _ => (inl Forbidden, s)
  | putFileContents _ _ => (inl Forbidden, s)
  | deleteFile _ => (inl Forbidden, s)
  end.

Definition State : Type := string.

#[global] Instance client : Client State := serve.

End ReadOnly.

(** ** Decimal numerals *)

Module Decimal.

(** [Number.isSafeInteger(n)] for an integral [n]. *)
Definition safeInteger (n : Z) : Prop := - (2 ^ 53 - 1) <= n <= 2 ^ 53 - 1.

(** The value of a decimal digit. *)
Definition digitValue (c : ascii) : option Z :=
  let code := Z.of_N (N_of_ascii c) in
  if (48 <=? code) && (code <=? 57) then Some (code - 48) else None.

(** The value of a string of digits, read after the value [acc]. *)
Fixpoint readDigits (acc : Z) (s : string) : option Z :=
  match s with
  | EmptyString => Some acc
  | String c rest =>
      match digitValue c with
      | Some d => readDigits (10 * acc + d) rest
      | None => None
      end
  end.

(** The value of a numeral of a natural number: digits, at least one,
    with no zero in front of another digit. *)
Definition readNatural (s : string) : option Z :=
  match s with
  | EmptyString => None
  | String c rest =>
      if Ascii.eqb c "0" && negb (String.eqb rest "") then None
      else readDigits 0 s
  end.

(** The value of a numeral of an integer: a numeral of a natural
    number, or [-] and the numeral of a positive one.  No two numerals
    have the same value. *)
Definition readNumber (s : string) : option Z :=
  match s with
  | EmptyString => None
  | String c rest =>
      if Ascii.eqb c "-" then
        match readNatural rest with
        | Some n => if n =? 0 then None else Some (- n)
        | None => None
        end
      else readNatural s
  end.

End Decimal.

(** * Properties *)

(** ** Strings and paths *)

Section PathLemmas.
Import JS NodePath.

Lemma append_nil (b : string) : "" +:+ b = b.
Proof. reflexivity. Qed.

Lemma append_cons (c : ascii) (a b : string) :
  String c a +:+ b = String c (a +:+ b).
Proof. reflexivity. Qed.

Lemma append_assoc (a b c : string) : (a +:+ b) +:+ c = a +:+ (b +:+ c).
Proof.
  induction a as [|x a IH]; [reflexivity|].
  now rewrite !append_cons, IH.
Qed.

Lemma append_empty_r (a : string) : a +:+ "" = a.
Proof.
  induction a as [|x a IH]; [reflexivity|].
  now rewrite append_cons, IH.
Qed.

(** A path either has no trailing slash to strip, or is the stripped
    path followed by one slash. *)
Lemma stripTrailingSlash_cases (r : string) :
  r = stripTrailingSlash r \/ r = stripTrailingSlash r +:+ "/".
Proof.
  induction r as [|c r IH]; [now left|].
  destruct r as [|d r'].
  - simpl. destruct (Ascii.eqb_spec c "/") as [->|]; [now right | now left].
  - change (stripTrailingSlash (String c (String d r')))
      with (String c (stripTrailingSlash (String d r'))).
    destruct IH as [IH|IH]; [left | right];
      rewrite ?append_cons; now rewrite <- IH.
Qed.

Lemma split_cons_slash (s : string) : split (String "/" s) = "" :: split s.
Proof. unfold split. simpl. now destruct (split1 s). Qed.

Lemma split_cons_other (c : ascii) (s : string) :
  Ascii.eqb c "/" = false ->
  split (String c s) =
    match split s with
    | seg :: rest => String c seg :: rest
    | [] => [String c ""]
    end.
Proof. intros Hc. unfold split. simpl. destruct (split1 s). now rewrite Hc. Qed.

Lemma split_not_nil (s : string) : split s <> [].
Proof. unfold split. now destruct (split1 s). Qed.

(** Splitting distributes over a slash. *)
Lemma split_app_slash (a b : string) :
  split (a +:+ String "/" b) = split a ++ split b.
Proof.
  induction a as [|c a IH]; [rewrite append_nil | rewrite append_cons].
  - now rewrite split_cons_slash.
  - destruct (Ascii.eqb c "/") eqn:Hc.
    + apply Ascii.eqb_eq in Hc. subst c.
      rewrite !split_cons_slash, IH. reflexivity.
    + rewrite !split_cons_other, IH by assumption.
      destruct (split a) eqn:Ha; [now apply split_not_nil in Ha|reflexivity].
Qed.

Lemma join_split (s : string) : join (split s) = s.
Proof.
  induction s as [|c s IH]; [reflexivity|].
  destruct (Ascii.eqb c "/") eqn:Hc.
  - apply Ascii.eqb_eq in Hc. subst c. rewrite split_cons_slash.
    destruct (split s) eqn:Hs; [now apply split_not_nil in Hs|].
    change (join ("" :: s0 :: l)) with ("" +:+ "/" +:+ join (s0 :: l)).
    now rewrite IH, append_nil.
  - rewrite split_cons_other by assumption.
    destruct (split s) as [|seg rest] eqn:Hs; [now apply split_not_nil in Hs|].
    destruct rest as [|seg' rest'].
    + simpl in *. now rewrite IH.
    + change (join (String c seg :: seg' :: rest'))
        with (String c (seg +:+ "/" +:+ join (seg' :: rest'))).
      change (join (seg :: seg' :: rest'))
        with (seg +:+ "/" +:+ join (seg' :: rest')) in IH.
      now rewrite IH.
Qed.

Lemma normalizeSegs_app (acc xs ys : list string) :
  normalizeSegs acc (xs ++ ys) = normalizeSegs (normalizeSegs acc xs) ys.
Proof.
  revert acc. induction xs as [|x xs IH]; intros acc; simpl; [reflexivity|].
  destruct (String.eqb x "" || String.eqb x "."); [apply IH|].
  destruct (String.eqb x ".."); apply IH.
Qed.

(** Stripping the trailing slash of a path, under any prefix, does not
    change what the path resolves to. *)
Lemma normalizeSegs_stripTrailingSlash (acc : list string) (pre r : string) :
  normalizeSegs acc (split (pre +:+ r)) =
  normalizeSegs acc (split (pre +:+ stripTrailingSlash r)).
Proof.
  destruct (stripTrailingSlash_cases r) as [H|H]; [now rewrite <- H|].
  rewrite H at 1. rewrite <- append_assoc, split_app_slash, normalizeSegs_app.
  reflexivity.
Qed.

(** Leading slashes only make empty segments. *)
Lemma normalizeSegs_stripLeadingSlashes (acc : list string) (p : string) :
  normalizeSegs acc (split p) = normalizeSegs acc (split (stripLeadingSlashes p)).
Proof.
  induction p as [|c p IH]; [reflexivity|]. simpl.
  destruct (Ascii.eqb c "/") eqn:Hc; [|reflexivity].
  apply Ascii.eqb_eq in Hc. subst c. rewrite split_cons_slash. simpl. exact IH.
Qed.

Lemma stripLeadingSlashes_stripLeadingSlash (p : string) :
  stripLeadingSlashes (stripLeadingSlash p) = stripLeadingSlashes p.
Proof.
  destruct p as [|c p]; [reflexivity|]. simpl.
  destruct (Ascii.eqb c "/") eqn:Hc; [reflexivity|]. simpl. now rewrite Hc.
Qed.

Lemma dropCommon_prefix (fs qs : list string) :
  dropCommon fs (fs ++ qs) = ([], qs).
Proof.
  induction fs as [|f fs IH]; simpl; [now destruct qs|].
  now rewrite String.eqb_refl.
Qed.

End PathLemmas.

Section RoundTrip.
Import JS NodePath Paths.

Lemma normalizeSegs_normal (acc xs : list string) :
  forallb normalSegment xs = true -> normalizeSegs acc xs = acc ++ xs.
Proof.
  revert acc. induction xs as [|x xs IH]; intros acc Hall.
  - now rewrite app_nil_r.
  - simpl in Hall. apply andb_prop in Hall as [Hx Hxs].
    unfold normalSegment in Hx.
    apply andb_prop in Hx as [Hx Hdd]. apply andb_prop in Hx as [He Hd].
    apply negb_true_iff in He, Hd, Hdd.
    simpl. rewrite He, Hd, Hdd. simpl.
    rewrite (IH _ Hxs), <- app_assoc. reflexivity.
Qed.

Lemma normalizeSegs_clean (acc : list string) (q : string) :
  cleanPath q = true -> normalizeSegs acc (split q) = acc ++ segments q.
Proof.
  unfold cleanPath, segments. destruct (String.eqb_spec q "") as [->|Hq].
  - intros _. now rewrite app_nil_r.
  - simpl. apply normalizeSegs_normal.
Qed.

Lemma join_segments (q : string) : join (segments q) = q.
Proof.
  unfold segments. destruct (String.eqb_spec q "") as [->|Hq];
    [reflexivity | apply join_split].
Qed.

Lemma stripLeadingSlashes_idem (p : string) :
  stripLeadingSlashes (stripLeadingSlashes p) = stripLeadingSlashes p.
Proof.
  induction p as [|c p IH]; [reflexivity|]. simpl.
  destruct (Ascii.eqb c "/") eqn:Hc; [exact IH|]. simpl. now rewrite Hc.
Qed.

Lemma isAbsolute_joined (r p' : string) :
  r <> "" ->
  isAbsolute (stripTrailingSlash r +:+ String "/" p') = isAbsolute r.
Proof.
  intros Hr. destruct r as [|c [|d r2]]; [contradiction| |].
  - simpl. destruct (Ascii.eqb_spec c "/") as [->|Hc]; [reflexivity|].
    rewrite append_cons. simpl. now apply Ascii.eqb_neq.
  - change (stripTrailingSlash (String c (String d r2)))
      with (String c (stripTrailingSlash (String d r2))).
    now rewrite append_cons.
Qed.

Lemma append_slash_nonempty (a b : string) :
  String.eqb (a +:+ String "/" b) "" = false.
Proof. now destruct a. Qed.

(** The joined path resolves to what the root resolves to, followed
    by the segments of the caller's path. *)
Lemma resolveSegs_joined (cwd r p : string) :
  r <> "" ->
  cleanPath (stripLeadingSlashes p) = true ->
  resolveSegs cwd (stripTrailingSlash r +:+ String "/" (stripLeadingSlash p)) =
  resolveSegs cwd r ++ segments (stripLeadingSlashes p).
Proof.
  intros Hr Hclean. unfold resolveSegs.
  rewrite append_slash_nonempty, isAbsolute_joined by assumption.
  destruct (String.eqb_spec r "") as [|_]; [contradiction|].
  assert (Hpre : forall pre,
    normalizeSegs []
      (split (pre +:+ stripTrailingSlash r +:+ String "/" (stripLeadingSlash p))) =
    normalizeSegs [] (split (pre +:+ r)) ++ segments (stripLeadingSlashes p)).
  { intros pre. rewrite <- append_assoc, split_app_slash, normalizeSegs_app.
    rewrite <- normalizeSegs_stripTrailingSlash.
    rewrite normalizeSegs_stripLeadingSlashes.
    rewrite stripLeadingSlashes_stripLeadingSlash.
    now apply normalizeSegs_clean. }
  destruct (isAbsolute r).
  - exact (Hpre "").
  - rewrite <- (append_assoc cwd "/" r).
    rewrite <- (append_assoc cwd "/" (stripTrailingSlash r +:+ _)).
    apply Hpre.
Qed.

End RoundTrip.

(** ** The path normalizer and its inverse *)

Section Normalizer.
Import JS NodePath Paths.

(** C3, as stated, fails: a path without [..] segments that has an
    empty segment does not come back from [fullPath] followed by the
    denormalizer of [list], even up to its leading slashes. *)
Lemma denormalize_fullPath_counterexample :
  ~ (forall (this : Index.DriverWebDAV) (cwd p : string),
       noDotDot p = true ->
       Index.denormalize this cwd (Index.fullPath this p)
       = stripLeadingSlashes p).
Proof.
  intros H.
  specialize (H {| Index.root := "/data" |} "/srv/app" "a//b" eq_refl).
  vm_compute in H. discriminate H.
Qed.

(** A [.] segment and a trailing slash are lost in the same way. *)
Example denormalize_fullPath_dot_segment :
  Index.denormalize {| Index.root := "/data" |} "/srv/app"
    (Index.fullPath {| Index.root := "/data" |} "a/./b") = "a/b"
  /\ Index.denormalize {| Index.root := "/data" |} "/srv/app"
       (Index.fullPath {| Index.root := "/data" |} "a/") = "a".
Proof. split; reflexivity. Qed.

(** The same happens for a clean path when the configured root is the
    empty string: the joined path is absolute while the root resolves
    to the working directory. *)
Example denormalize_fullPath_empty_root :
  Index.denormalize {| Index.root := "" |} "/srv/app"
    (Index.fullPath {| Index.root := "" |} "a/b") = "../../a/b".
Proof. reflexivity. Qed.

(** C3 (amended): for every non-empty configured root and every path
    [p] that, once its leading slashes are removed, is empty or has
    only non-empty segments other than [.] and [..], the normalizer
    followed by the denormalizer of [list] gives back [p] without its
    leading slashes. *)
Theorem denormalize_fullPath (this : Index.DriverWebDAV) (cwd p : string) :
  Index.root this <> "" ->
  cleanPath (stripLeadingSlashes p) = true ->
  Index.denormalize this cwd (Index.fullPath this p) = stripLeadingSlashes p.
Proof.
  intros Hroot Hclean.
  unfold Index.denormalize, Index.fullPath, relative.
  change ("/" +:+ stripLeadingSlash p) with (String "/" (stripLeadingSlash p)).
  pose proof (resolveSegs_joined cwd _ p Hroot Hclean) as Hres.
  destruct (String.eqb_spec (Index.root this)
              (stripTrailingSlash (Index.root this)
               +:+ String "/" (stripLeadingSlash p))) as [Heq|Hne].
  - rewrite <- Heq in Hres.
    assert (Hnil : segments (stripLeadingSlashes p) = []).
    { apply (app_inv_head (resolveSegs cwd (Index.root this))).
      now rewrite app_nil_r. }
    rewrite <- (join_segments (stripLeadingSlashes p)), Hnil. reflexivity.
  - rewrite Hres, dropCommon_prefix. simpl.
    rewrite join_segments. apply stripLeadingSlashes_idem.
Qed.

Lemma denormalize_fullPath_witness :
  Index.denormalize {| Index.root := "/data/" |} "/srv/app"
    (Index.fullPath {| Index.root := "/data/" |} "//photos/2024/a.jpg")
  = "photos/2024/a.jpg".
Proof.
  apply (denormalize_fullPath {| Index.root := "/data/" |} "/srv/app"
           "//photos/2024/a.jpg").
  - simpl. discriminate.
  - vm_compute. reflexivity.
Defined.

End Normalizer.

(** ** Running programs *)

Section Run.
Import WebDAV.
Context {St : Type} `{!Client St}.

Lemma run_await (q : Request) (s : St) :
  run (await q) s =
  match handle q s with
  | (inr v, s') => (inr v, s', [q])
  | (inl e, s') => (inl e, s', [q])
  end.
Proof. simpl. now destruct (handle q s) as [[e|v] s']. Qed.

Lemma run_bind {A B : Type} (p : Prog A) (f : A -> Prog B) (s : St) :
  run (p ≫= f) s =
  match run p s with
  | (inr a, s', issued) =>
      let '(out, s'', issued') := run (f a) s' in (out, s'', issued ++ issued')
  | (inl e, s', issued) => (inl e, s', issued)
  end.
Proof.
  revert s. induction p as [a|e|q k IH]; intros s.
  - change (run (f a) s = let '(out, s'', issued') := run (f a) s in
                          (out, s'', [] ++ issued')).
    now destruct (run (f a) s) as [[out s''] issued'].
  - reflexivity.
  - change (run (Do q k ≫= f) s)
      with (let '(r, s') := handle q s in
            let '(out, s'', issued) := run (k r ≫= f) s' in
            (out, s'', q :: issued)).
    simpl. destruct (handle q s) as [r s']. rewrite IH.
    destruct (run (k r) s') as [[[e|a] s''] issued]; [reflexivity|].
    now destruct (run (f a) s'') as [[out s3] issued'].
Qed.

End Run.

(** One request of a program under [run]: the [await] in the goal is
  replaced by the answer of the client. *)
Ltac run_await_step :=
match goal with
| |- context [WebDAV.run (WebDAV.await ?q) ?s] => rewrite (run_await q s)
end.

(** ** Numbers in template literals *)

Section Numerals.
Import JS Decimal.

Lemma digitValue_pretty_N_char (x : N) :
  (x < 10)%N -> digitValue (pretty_N_char x) = Some (Z.of_N x).
Proof.
  intros Hx.
  assert (x = 0 \/ x = 1 \/ x = 2 \/ x = 3 \/ x = 4 \/ x = 5 \/ x = 6
          \/ x = 7 \/ x = 8 \/ x = 9)%N as Hcases by lia.
  repeat destruct Hcases as [->|Hcases]; try reflexivity.
  now subst x.
Qed.

Lemma readDigits_pretty_N_go (x : N) (s : string) :
  readDigits 0 (pretty_N_go x s) = readDigits (Z.of_N x) s.
Proof.
  revert s. induction (N.lt_wf_0 x) as [x _ IH]. intros s.
  destruct (N.eq_dec x 0) as [->|Hx]; [now rewrite pretty_N_go_0|].
  rewrite pretty_N_go_step by lia.
  rewrite IH by (apply N.div_lt; lia).
  cbn [readDigits].
  rewrite digitValue_pretty_N_char by (apply N.mod_lt; lia).
  f_equal. pose proof (N.div_mod x 10). lia.
Qed.

(** The numeral of a positive number starts with a digit from 1 to 9. *)
Lemma pretty_N_go_head (x : N) (s : string) :
  (0 < x)%N ->
  exists c rest, pretty_N_go x s = String c rest
                 /\ Ascii.eqb c "0" = false /\ Ascii.eqb c "-" = false.
Proof.
  revert s. induction (N.lt_wf_0 x) as [x _ IH]. intros s Hx.
  rewrite pretty_N_go_step by exact Hx.
  destruct (N.lt_ge_cases x 10) as [Hsmall|Hbig].
  - rewrite N.div_small, N.mod_small, pretty_N_go_0 by exact Hsmall.
    exists (pretty_N_char x), s. split; [reflexivity|].
    assert (x = 1 \/ x = 2 \/ x = 3 \/ x = 4 \/ x = 5 \/ x = 6
            \/ x = 7 \/ x = 8 \/ x = 9)%N as Hcases by lia.
    repeat destruct Hcases as [->|Hcases]; try (split; reflexivity).
    subst x. split; reflexivity.
  - apply IH.
    + apply N.div_lt; lia.
    + apply N.div_str_pos. lia.
Qed.

Lemma readNatural_pretty_N (x : N) : readNatural (pretty x) = Some (Z.of_N x).
Proof.
  unfold pretty, pretty_N. destruct (decide (x = 0%N)) as [->|Hx]; [reflexivity|].
  destruct (pretty_N_go_head x "") as (c & rest & Hgo & Hzero & _); [lia|].
  pose proof (readDigits_pretty_N_go x "") as Hread.
  rewrite Hgo in *. unfold readNatural. rewrite Hzero. exact Hread.
Qed.

(** The template literal of an integer is its decimal numeral. *)
Lemma readNumber_numberToString (n : Z) :
  readNumber (numberToString n) = Some n.
Proof.
  unfold numberToString, pretty, pretty_Z. destruct n as [|p|p].
  - reflexivity.
  - pose proof (readNatural_pretty_N (N.pos p)) as Hnat.
    unfold pretty, pretty_positive. unfold pretty, pretty_N in *.
    destruct (decide (N.pos p = 0%N)) as [|_]; [discriminate|].
    destruct (pretty_N_go_head (N.pos p) "") as (c & rest & Hgo & _ & Hdash);
      [lia|].
    rewrite Hgo in *. unfold readNumber. rewrite Hdash. exact Hnat.
  - pose proof (readNatural_pretty_N (N.pos p)) as Hnat.
    change ("-" +:+ pretty p) with (String "-" (pretty (N.pos p))).
    unfold readNumber. change (Ascii.eqb "-" "-") with true. cbv iota.
    rewrite Hnat. reflexivity.
Qed.

End Numerals.

(** ** The adapter operations, against any client *)

Section Adapter.
Import JS Storage Listing WebDAV.
Context {St : Type} `{!Client St}.

(** C5: [exists] issues one [stat] on the normalized path and never
    throws; it returns [true] exactly when that [stat] succeeds and
    [false] whatever the [stat] was rejected with. *)
Theorem exists_iff_stat_succeeds (this : Index.DriverWebDAV) (f : string) (s : St) :
  let answer := handle (stat (Index.fullPath this f)) s in
  exists b : bool,
    run (Index.exists_ this f) s = (inr b, answer.2, [stat (Index.fullPath this f)])
    /\ (b = true <-> exists r, answer.1 = inr r)
    /\ (forall e, answer.1 = inl e -> b = false).
Proof.
  unfold Index.exists_. simpl.
  destruct (handle (stat (Index.fullPath this f)) s) as [[e|r] s']; simpl.
  - exists false. split; [reflexivity|]. split.
    + split; [discriminate | intros [r Hr]; discriminate].
    + reflexivity.
  - exists true. split; [reflexivity|]. split.
    + split; [eauto | reflexivity].
    + discriminate.
Qed.

(** C6: the only request of [read] is [createReadStream] on the
    normalized path.  For safe-integer positions, with a range whose
    end is present its [Range] header is [bytes=start-end], with the
    end absent [bytes=start-], where [start] and [end] stand as their
    decimal numerals; without a range no headers are passed at all. *)
Theorem read_range_header (this : Index.DriverWebDAV) (f : string) (s : St)
    (start end_ : Z) :
  Decimal.safeInteger start ->
  Decimal.safeInteger end_ ->
  exists ds de : string,
    Decimal.readNumber ds = Some start
    /\ Decimal.readNumber de = Some end_
    /\ (run (Index.read this f
               (Some {| range := Some {| start := start; end_ := Some end_ |} |})) s).2
       = [createReadStream (Index.fullPath this f)
            (Some [("Range", "bytes=" +:+ ds +:+ "-" +:+ de)])]
    /\ (run (Index.read this f
               (Some {| range := Some {| start := start; end_ := None |} |})) s).2
       = [createReadStream (Index.fullPath this f)
            (Some [("Range", "bytes=" +:+ ds +:+ "-")])]
    /\ (run (Index.read this f (Some {| range := None |})) s).2
       = [createReadStream (Index.fullPath this f) None]
    /\ (run (Index.read this f None) s).2
       = [createReadStream (Index.fullPath this f) None].
Proof.
  intros _ _. exists (numberToString start), (numberToString end_).
  split; [apply readNumber_numberToString|].
  split; [apply readNumber_numberToString|].
  unfold Index.read. simpl. rewrite append_empty_r.
  repeat split;
    match goal with |- context [handle ?q s] =>
      now destruct (handle q s) as [[e|v] s'] end.
Qed.

(** What [stat] does with a response. *)
Lemma stat_run (this : Index.DriverWebDAV) (now : Z) (f : string)
    (s s' : St) (resp : Response FileStat) :
  handle (stat (Index.fullPath this f)) s = (inr resp, s') ->
  run (Index.stat this now f) s
  = (inr {| Storage.size :=
              match WebDAV.size (payload resp) with Some n => n | None => 0 end;
            modified :=
              match lastmod (payload resp) with
              | Some l => if String.eqb l "" then DateAt now else DateOf l
              | None => DateAt now
              end |},
     s', [stat (Index.fullPath this f)]).
Proof.
  intros Hstat. unfold Index.stat. rewrite run_bind. run_await_step.
  rewrite Hstat. now destruct resp.
Qed.

(** C7: [stat] issues one [stat] request on the normalized path and,
    whatever the response leaves out, returns: the size is the reported
    one or 0, the date is the reported [lastmod] or the clock reading
    when there is none (or an empty one), and an envelope is looked
    through. *)
Theorem stat_defaults (this : Index.DriverWebDAV) (now : Z) (f : string)
    (s s' : St) (resp : Response FileStat) :
  handle (stat (Index.fullPath this f)) s = (inr resp, s') ->
  exists st : Stat,
    run (Index.stat this now f) s = (inr st, s', [stat (Index.fullPath this f)])
    /\ (forall n, WebDAV.size (payload resp) = Some n -> Storage.size st = n)
    /\ (WebDAV.size (payload resp) = None -> Storage.size st = 0)
    /\ (forall l, lastmod (payload resp) = Some l -> l <> "" ->
                  modified st = DateOf l)
    /\ (lastmod (payload resp) = None \/ lastmod (payload resp) = Some "" ->
        modified st = DateAt now).
Proof.
  intros Hstat. eexists. split; [exact (stat_run this now f s s' resp Hstat)|].
  cbn [Storage.size modified].
  destruct (WebDAV.size (payload resp)) as [n|], (lastmod (payload resp)) as [l|];
    repeat split; try congruence; try (intros [?|?]; congruence).
  all: try (intros l' Hl Hne; injection Hl as ->;
            destruct (String.eqb_spec l' ""); [contradiction | reflexivity]).
  all: intros [Hl|Hl]; [discriminate | injection Hl as ->; reflexivity].
Qed.



End Adapter.

(** ** Buffers *)

Section Buffers.
Import JS.

(** From position 0, [subarray] keeps the first [offset] bytes, or all of
    them when there are fewer. *)
Lemma subarray_from_start (buf : Buffer) (offset : Z) :
  0 <= offset -> subarray buf 0 offset = take (Z.to_nat offset) buf.
Proof.
  intros Hoff. unfold subarray, adjustOffset.
  change (0 =? 0) with true. cbv iota. rewrite drop_0.
  destruct (Z.eqb_spec offset 0) as [->|Hnz]; [reflexivity|].
  destruct (Z.ltb_spec offset 0) as [|_]; [lia|].
  destruct (Z.ltb_spec offset (Z.of_nat (List.length buf))) as [Hlt|Hge].
  - destruct (Z.ltb_spec 0 offset) as [_|]; [|lia].
    now rewrite Z.sub_0_r.
  - destruct (Z.ltb_spec 0 (Z.of_nat (List.length buf))) as [Hpos|Hzero].
    + rewrite Z.sub_0_r, Nat2Z.id, !take_ge by lia. reflexivity.
    + assert (List.length buf = 0%nat) as Hlen by lia.
      apply length_zero_iff_nil in Hlen. subst buf. now rewrite !take_nil.
Qed.

Lemma subarray_zero (buf : Buffer) : subarray buf 0 0 = [].
Proof. now rewrite subarray_from_start. Qed.

Lemma subarray_all (buf : Buffer) (offset : Z) :
  Buffer_length buf <= offset -> subarray buf 0 offset = buf.
Proof.
  unfold Buffer_length. intros Hoff.
  rewrite subarray_from_start, take_ge by lia. reflexivity.
Qed.

Lemma Buffer_length_app (a b : Buffer) :
  Buffer_length (a ++ b) = Buffer_length a + Buffer_length b.
Proof. unfold Buffer_length. rewrite length_app. lia. Qed.

End Buffers.

(** ** Chunked uploads, against a client that stores faithfully *)

Section ChunkedUpload.
Import JS Storage WebDAV.
Context {St : Type} `{!Client St} `{!FaithfulStore St}.
Context {ChunkedUploadContext : Type}.

(** One [writeChunk] on an existing object: a whole-file read, then a
    whole-file write of the first [offset] bytes (as [subarray] cuts
    them) followed by the chunk; the new length is returned. *)
Lemma writeChunk_run (this : Index.DriverWebDAV) (f : string)
    (chunk : Readable) (offset : Z) (ctx : ChunkedUploadContext)
    (s : St) (old : Buffer) :
  let remotePath := Index.fullPath this f in
  let newContent := subarray old 0 offset ++ drain chunk in
  content s remotePath = Some old ->
  exists s' : St,
    run (Index.writeChunk this f chunk offset ctx) s
    = (inr (Buffer_length newContent), s',
       [getFileContents remotePath "binary";
        putFileContents remotePath (PutBuffer newContent)])
    /\ content s' remotePath = Some newContent.
Proof.
  intros remotePath newContent Hold.
  destruct (getFileContents_stored s remotePath old Hold) as (r & Hget & Hbuf).
  destruct (putFileContents_stores s remotePath (PutBuffer newContent))
    as (s' & Hput & Hnew & _).
  exists s'. split; [|exact Hnew].
  unfold Index.writeChunk. fold remotePath.
  rewrite run_bind. run_await_step. rewrite Hget.
  assert (Hexisting :
    match match r with Envelope data => data | Plain plain => plain end with
    | RawString s0 => Buffer_from (RawString s0)
    | RawArrayBuffer b => Buffer_from (RawArrayBuffer b)
    | RawBuffer b => b
    end = old).
  { rewrite <- Hbuf. now destruct r as [[]|[]]. }
  rewrite Hexisting.
  change (Buffer_concat (subarray old 0 offset :: map Buffer_from chunk))
    with newContent.
  rewrite run_bind. run_await_step. rewrite Hput. reflexivity.
Qed.

(** C1: on an object that is empty, writing [c1] at offset 0 and then
    [c2] at offset [len c1] leaves [c1 ++ c2] in the object, and the
    second call returns [len c1 + len c2]. *)
Theorem writeChunk_sequential (this : Index.DriverWebDAV) (f : string)
    (chunk1 chunk2 : Readable) (ctx1 ctx2 : ChunkedUploadContext) (s : St) :
  let c1 := drain chunk1 in
  let c2 := drain chunk2 in
  content s (Index.fullPath this f) = Some [] ->
  exists (s1 s2 : St) (issued1 issued2 : list Request),
    run (Index.writeChunk this f chunk1 0 ctx1) s
    = (inr (Buffer_length c1), s1, issued1)
    /\ run (Index.writeChunk this f chunk2 (Buffer_length c1) ctx2) s1
       = (inr (Buffer_length c1 + Buffer_length c2), s2, issued2)
    /\ content s2 (Index.fullPath this f) = Some (c1 ++ c2).
Proof.
  intros c1 c2 Hempty.
  destruct (writeChunk_run this f chunk1 0 ctx1 s [] Hempty) as (s1 & Hrun1 & Hc1).
  rewrite subarray_zero in Hrun1, Hc1. simpl in Hrun1, Hc1. fold c1 in Hrun1, Hc1.
  destruct (writeChunk_run this f chunk2 (Buffer_length c1) ctx2 s1 c1 Hc1)
    as (s2 & Hrun2 & Hc2).
  rewrite subarray_all in Hrun2, Hc2 by lia. fold c2 in Hrun2, Hc2.
  rewrite Buffer_length_app in Hrun2.
  eauto 10.
Qed.

(** C2: on an existing object, whatever its length (so also a length
    N > 0), writing a chunk at offset 0 leaves exactly the bytes of the
    chunk in the object, none of the old ones, and returns the length of
    the chunk. *)
Theorem writeChunk_at_zero_replaces (this : Index.DriverWebDAV) (f : string)
    (chunk : Readable) (ctx : ChunkedUploadContext) (s : St) (old : Buffer) :
  content s (Index.fullPath this f) = Some old ->
  exists (s' : St) (issued : list Request),
    run (Index.writeChunk this f chunk 0 ctx) s
    = (inr (Buffer_length (drain chunk)), s', issued)
    /\ content s' (Index.fullPath this f) = Some (drain chunk).
Proof.
  intros Hold.
  destruct (writeChunk_run this f chunk 0 ctx s old Hold) as (s' & Hrun & Hc).
  rewrite subarray_zero in Hrun, Hc. simpl in Hrun, Hc. eauto.
Qed.

(** C9: when the offset lies beyond the end of the existing object of
    length N, nothing is padded: the object becomes the old content
    followed by the chunk, and N + len c is returned. *)
Theorem writeChunk_beyond_end (this : Index.DriverWebDAV) (f : string)
    (chunk : Readable) (offset : Z) (ctx : ChunkedUploadContext)
    (s : St) (old : Buffer) :
  content s (Index.fullPath this f) = Some old ->
  Buffer_length old < offset ->
  exists (s' : St) (issued : list Request),
    run (Index.writeChunk this f chunk offset ctx) s
    = (inr (Buffer_length old + Buffer_length (drain chunk)), s', issued)
    /\ content s' (Index.fullPath this f) = Some (old ++ drain chunk).
Proof.
  intros Hold Hoff.
  destruct (writeChunk_run this f chunk offset ctx s old Hold) as (s' & Hrun & Hc).
  rewrite subarray_all in Hrun, Hc by lia.
  rewrite Buffer_length_app in Hrun. eauto.
Qed.

(** C4: [createChunkedUpload] writes a stream of no bytes to the
    normalized path and returns the context it was given; the object is
    then empty, and a [stat] that follows reports size 0. *)
Theorem createChunkedUpload_empty (this : Index.DriverWebDAV) (f : string)
    (ctx : ChunkedUploadContext) (now : Z) (s : St) :
  exists (s' s'' : St) (st : Stat) (issued : list Request),
    run (Index.createChunkedUpload this f ctx) s
    = (inr ctx, s',
       [putFileContents (Index.fullPath this f) (PutStream [RawBuffer []])])
    /\ content s' (Index.fullPath this f) = Some []
    /\ run (Index.stat this now f) s' = (inr st, s'', issued)
    /\ Storage.size st = 0.
Proof.
  destruct (putFileContents_stores s (Index.fullPath this f)
              (PutStream (Readable_from Buffer_alloc0)))
    as (s' & Hput & Hnew & _).
  change (putBytes (PutStream (Readable_from Buffer_alloc0))) with (@nil byte) in Hnew.
  destruct (stat_stored s' (Index.fullPath this f) [] Hnew) as (r & Hstat & Hsize).
  pose proof (stat_run this now f s' s' r Hstat) as Hrun. rewrite Hsize in Hrun.
  eexists s', s', _, [stat (Index.fullPath this f)].
  split; [|split; [exact Hnew | split; [exact Hrun | reflexivity]]].
  unfold Index.createChunkedUpload, Index.write.
  rewrite !run_bind. run_await_step. rewrite Hput. reflexivity.
Qed.

End ChunkedUpload.

(** ** The two source files *)

Section TwoFiles.
Import JS Storage WebDAV.

(** Drivers built by the two files from the same [root] setting. *)
Lemma same_root (root : option string) (b u p b' u' p' : string) :
  Index.root (Index.new {| Index.baseUrl := b; Index.username := u;
                           Index.password := p; Index.config_root := root |})
  = Webdav.root (Webdav.new {| Webdav.baseUrl := b'; Webdav.username := u';
                               Webdav.password := p'; Webdav.config_root := root |}).
Proof. reflexivity. Qed.

Lemma same_yields (r cwd : string) (contents : list FileStat) :
  Index.yields {| Index.root := r |} cwd contents
  = Webdav.yields {| Webdav.root := r |} cwd contents.
Proof.
  induction contents as [|item rest IH]; [reflexivity|].
  simpl. now rewrite IH.
Qed.

Context {St : Type} `{!Client St}.

Lemma same_list (r cwd : string) (prefix : option string) (s : St) :
  run (Index.list {| Index.root := r |} cwd prefix) s
  = run (Webdav.list {| Webdav.root := r |} cwd prefix) s.
Proof.
  unfold Index.list, Webdav.list.
  change (Webdav.fullPath {| Webdav.root := r |})
    with (Index.fullPath {| Index.root := r |}).
  rewrite !run_bind. run_await_step.
  destruct (handle _ s) as [[e|res] s']; [reflexivity|].
  simpl. now rewrite same_yields.
Qed.

(** C10: drivers built by the two files from the same configuration
    normalize paths alike and, for each method of the base contract, on
    every client, in every state and for all arguments, return the same
    outcome, leave the client in the same state and issue the same
    requests in the same order. *)
Theorem drivers_agree (baseUrl username password : string)
    (root : option string) :
  let a := Index.new {| Index.baseUrl := baseUrl; Index.username := username;
                        Index.password := password;
                        Index.config_root := root |} in
  let b := Webdav.new {| Webdav.baseUrl := baseUrl;
                         Webdav.username := username;
                         Webdav.password := password;
                         Webdav.config_root := root |} in
  (forall f, Index.fullPath a f = Webdav.fullPath b f)
  /\ (forall f o (s : St), run (Index.read a f o) s = run (Webdav.read b f o) s)
  /\ (forall now f (s : St),
        run (Index.stat a now f) s = run (Webdav.stat b now f) s)
  /\ (forall f (s : St), run (Index.exists_ a f) s = run (Webdav.exists_ b f) s)
  /\ (forall src dest (s : St),
        run (Index.move a src dest) s = run (Webdav.move b src dest) s)
  /\ (forall src dest (s : St),
        run (Index.copy a src dest) s = run (Webdav.copy b src dest) s)
  /\ (forall f c (s : St),
        run (Index.write a f c) s = run (Webdav.write b f c) s)
  /\ (forall f (s : St), run (Index.delete a f) s = run (Webdav.delete b f) s)
  /\ (forall cwd prefix (s : St),
        run (Index.list a cwd prefix) s = run (Webdav.list b cwd prefix) s).
Proof.
  intros a b. subst a b. unfold Index.new, Webdav.new.
  cbn [Index.config_root Webdav.config_root].
  repeat split; try reflexivity.
  intros cwd prefix s. apply same_list.
Qed.

End TwoFiles.

(** ** The properties at concrete inputs *)

Section Instances.
Import JS Storage WebDAV Fixtures.

Lemma writeChunk_sequential_witness :
  exists (s1 s2 : MemDav.State) (issued1 issued2 : list Request),
    run (Index.writeChunk uploads "video.bin" chunkA 0 tt) emptyUpload
    = (inr 4, s1, issued1)
    /\ run (Index.writeChunk uploads "video.bin" chunkB 4 tt) s1
       = (inr 5, s2, issued2)
    /\ content s2 "/uploads/video.bin"
       = Some [x0a; x0b; x68; x69; xff]%byte.
Proof.
  apply (writeChunk_sequential uploads "video.bin" chunkA chunkB tt tt emptyUpload).
  reflexivity.
Defined.

Lemma writeChunk_at_zero_replaces_witness :
  exists (s' : MemDav.State) (issued : list Request),
    run (Index.writeChunk uploads "video.bin" chunkB 0 tt) threeBytes
    = (inr 1, s', issued)
    /\ content s' "/uploads/video.bin" = Some [xff]%byte.
Proof.
  apply (writeChunk_at_zero_replaces uploads "video.bin" chunkB tt threeBytes
           [x01; x02; x03]%byte).
  reflexivity.
Defined.

Lemma writeChunk_beyond_end_witness :
  exists (s' : MemDav.State) (issued : list Request),
    run (Index.writeChunk uploads "video.bin" chunkB 10 tt) threeBytes
    = (inr 4, s', issued)
    /\ content s' "/uploads/video.bin" = Some [x01; x02; x03; xff]%byte.
Proof.
  apply (writeChunk_beyond_end uploads "video.bin" chunkB 10 tt threeBytes
           [x01; x02; x03]%byte).
  - reflexivity.
  - reflexivity.
Defined.

Lemma createChunkedUpload_empty_witness :
  exists (s' s'' : MemDav.State) (st : Stat) (issued : list Request),
    run (Index.createChunkedUpload uploads "video.bin" "session-1"%string) threeBytes
    = (inr "session-1"%string, s',
       [putFileContents "/uploads/video.bin" (PutStream [RawBuffer []])])
    /\ content s' "/uploads/video.bin" = Some []
    /\ run (Index.stat uploads 1700000000000 "video.bin") s' = (inr st, s'', issued)
    /\ Storage.size st = 0.
Proof.
  exact (createChunkedUpload_empty uploads "video.bin" "session-1"%string
           1700000000000 threeBytes).
Defined.

Lemma stat_defaults_witness :
  exists st : Stat,
    run (Index.stat uploads 1700000000000 "video.bin") bareStat
    = (inr st, bareStat, [stat "/uploads/video.bin"])
    /\ Storage.size st = 0 /\ modified st = DateAt 1700000000000.
Proof.
  destruct (stat_defaults uploads 1700000000000 "video.bin" bareStat bareStat
              (Envelope {| filename := Some "/uploads/video.bin"%string;
                           lastmod := None; size := None; type := file |})
              eq_refl) as (st & Hrun & _ & Hsize & _ & Hdate).
  exists st. split; [exact Hrun|]. split; [now apply Hsize | apply Hdate; now left].
Defined.


Lemma read_range_header_witness :
  (exists ds de : string,
     Decimal.readNumber ds = Some 10
     /\ Decimal.readNumber de = Some 19
     /\ (run (Index.read uploads "video.bin"
                (Some {| range := Some {| start := 10; end_ := Some 19 |} |}))
             threeBytes).2
        = [createReadStream "/uploads/video.bin"
             (Some [("Range", "bytes=" +:+ ds +:+ "-" +:+ de)])]
     /\ (run (Index.read uploads "video.bin"
                (Some {| range := Some {| start := 10; end_ := None |} |}))
             threeBytes).2
        = [createReadStream "/uploads/video.bin"
             (Some [("Range", "bytes=" +:+ ds +:+ "-")])]
     /\ (run (Index.read uploads "video.bin" (Some {| range := None |}))
             threeBytes).2
        = [createReadStream "/uploads/video.bin" None]
     /\ (run (Index.read uploads "video.bin" None) threeBytes).2
        = [createReadStream "/uploads/video.bin" None])
  /\ (run (Index.read uploads "video.bin"
             (Some {| range := Some {| start := 10; end_ := Some 19 |} |}))
          threeBytes).2
     = [createReadStream "/uploads/video.bin" (Some [("Range", "bytes=10-19")])]
  /\ (run (Index.read uploads "video.bin"
             (Some {| range := Some {| start := 10; end_ := None |} |}))
          threeBytes).2
     = [createReadStream "/uploads/video.bin" (Some [("Range", "bytes=10-")])].
Proof.
  split; [|split; reflexivity].
  apply (read_range_header uploads "video.bin" threeBytes 10 19).
  - unfold Decimal.safeInteger. lia.
  - unfold Decimal.safeInteger. lia.
Defined.

(** [exists] on a broken connection, and on an object that is there. *)
Example exists_offline :
  run (Index.exists_ uploads "video.bin") Canned.offline
  = (inr false, Canned.offline, [stat "/uploads/video.bin"]).
Proof. reflexivity. Qed.

Example exists_stored :
  run (Index.exists_ uploads "video.bin") threeBytes
  = (inr true, threeBytes, [stat "/uploads/video.bin"]).
Proof. reflexivity. Qed.

Example exists_missing :
  (run (Index.exists_ uploads "other.bin") threeBytes).1.1 = inr false.
Proof. reflexivity. Qed.

Example exists_forbidden :
  (run (Index.exists_ uploads "video.bin")
     {| Canned.statAnswer := inl Forbidden; Canned.listing := inl Forbidden |}).1.1
  = inr false.
Proof. reflexivity. Qed.

(** What counts as the decimal numeral of a number. *)
Example readNumber_samples :
  Decimal.readNumber "19" = Some 19
  /\ Decimal.readNumber "0" = Some 0
  /\ Decimal.readNumber "-5" = Some (-5)
  /\ Decimal.readNumber "019" = None
  /\ Decimal.readNumber "-0" = None
  /\ Decimal.readNumber "1e+21" = None
  /\ Decimal.readNumber "" = None.
Proof. repeat split. Qed.

(** The two requests the spec gives for ranged reads. *)
Example read_range_10_19 :
  (run (Index.read uploads "video.bin"
          (Some {| range := Some {| start := 10; end_ := Some 19 |} |}))
       threeBytes).2
  = [createReadStream "/uploads/video.bin" (Some [("Range", "bytes=10-19")])].
Proof. reflexivity. Qed.

Example read_range_5_open :
  (run (Index.read uploads "video.bin"
          (Some {| range := Some {| start := 5; end_ := None |} |}))
       threeBytes).2
  = [createReadStream "/uploads/video.bin" (Some [("Range", "bytes=5-")])].
Proof. reflexivity. Qed.

(** A negative offset counts from the end of the existing object. *)
Example writeChunk_negative_offset :
  (run (Index.writeChunk uploads "video.bin" chunkB (-1) tt) threeBytes).1.1
  = inr 3.
Proof. reflexivity. Qed.

End Instances.

(** * Further properties of the drivers *)

(** ** The path normalizer *)

Section NormalizerMore.
Import JS NodePath Paths.

Lemma stripTrailingSlash_app_slash (r : string) :
  stripTrailingSlash (r +:+ "/") = r.
Proof.
  induction r as [|c r IH]; [reflexivity|].
  rewrite append_cons. destruct r as [|d r'].
  - reflexivity.
  - rewrite append_cons in *.
    change (stripTrailingSlash (String c (String d (r' +:+ "/"))))
      with (String c (stripTrailingSlash (String d (r' +:+ "/")))).
    now rewrite IH.
Qed.

(** X1: two caller paths are sent to the same remote path exactly when
    they are equal once one leading slash is removed from each. *)
Theorem fullPath_injective (this : Index.DriverWebDAV) (p q : string) :
  Index.fullPath this p = Index.fullPath this q
  <-> stripLeadingSlash p = stripLeadingSlash q.
Proof.
  unfold Index.fullPath. split.
  - intros H. apply String.app_inj in H. now apply String.app_inj in H.
  - now intros ->.
Qed.

(** X2: a root written with a slash at its end and the same root written
    without it confine to the same remote paths. *)
Theorem fullPath_root_trailing_slash (r p : string) :
  stripTrailingSlash r = r ->
  Index.fullPath {| Index.root := r +:+ "/" |} p
  = Index.fullPath {| Index.root := r |} p.
Proof.
  intros Hr. unfold Index.fullPath. simpl.
  now rewrite stripTrailingSlash_app_slash, Hr.
Qed.

Lemma fullPath_root_trailing_slash_witness :
  Index.fullPath {| Index.root := "/srv/dav/" |} "a.txt"
  = Index.fullPath {| Index.root := "/srv/dav" |} "a.txt".
Proof.
  apply (fullPath_root_trailing_slash "/srv/dav" "a.txt"). reflexivity.
Defined.

(** X3: a driver built without a root, with the empty root or with the
    root [/] sends every caller path to [/] followed by the path
    without its first slash. *)
Theorem fullPath_without_root (baseUrl username password p : string) :
  let config root :=
    {| Index.baseUrl := baseUrl; Index.username := username;
       Index.password := password; Index.config_root := root |} in
  Index.fullPath (Index.new (config None)) p = "/" +:+ stripLeadingSlash p
  /\ Index.fullPath (Index.new (config (Some ""))) p
     = "/" +:+ stripLeadingSlash p
  /\ Index.fullPath (Index.new (config (Some "/"))) p
     = "/" +:+ stripLeadingSlash p.
Proof. repeat split. Qed.

(** X4: under an absolute root, and under the empty root, every
    normalized path is absolute. *)
Theorem fullPath_absolute (this : Index.DriverWebDAV) (p : string) :
  isAbsolute (Index.root this) = true \/ Index.root this = "" ->
  isAbsolute (Index.fullPath this p) = true.
Proof.
  unfold Index.fullPath.
  change ("/" +:+ stripLeadingSlash p) with (String "/" (stripLeadingSlash p)).
  intros [Habs| ->].
  - rewrite isAbsolute_joined; [exact Habs|].
    intros Hempty. rewrite Hempty in Habs. discriminate.
  - reflexivity.
Qed.

Lemma fullPath_absolute_witness :
  isAbsolute (Index.fullPath {| Index.root := "/srv/dav/" |} "a/b.txt") = true.
Proof.
  apply (fullPath_absolute {| Index.root := "/srv/dav/" |} "a/b.txt").
  left. reflexivity.
Defined.

(** The joined path, taken relative to the root again, is the caller's
    path without its leading slashes. *)
Lemma relative_joined (cwd r p : string) :
  r <> "" ->
  cleanPath (stripLeadingSlashes p) = true ->
  stripLeadingSlashes
    (relative cwd r (stripTrailingSlash r +:+ "/" +:+ stripLeadingSlash p))
  = stripLeadingSlashes p.
Proof.
  intros Hroot Hclean. unfold relative.
  change ("/" +:+ stripLeadingSlash p) with (String "/" (stripLeadingSlash p)).
  pose proof (resolveSegs_joined cwd r p Hroot Hclean) as Hres.
  destruct (String.eqb_spec r
              (stripTrailingSlash r +:+ String "/" (stripLeadingSlash p)))
    as [Heq|Hne].
  - rewrite <- Heq in Hres.
    assert (Hnil : segments (stripLeadingSlashes p) = []).
    { apply (app_inv_head (resolveSegs cwd r)). now rewrite app_nil_r. }
    rewrite <- (join_segments (stripLeadingSlashes p)), Hnil. reflexivity.
  - rewrite Hres, dropCommon_prefix. simpl.
    rewrite join_segments. apply stripLeadingSlashes_idem.
Qed.

(** X5: the plain driver of [webdav.ts] has the same round trip: for a
    non-empty root and a path that, without its leading slashes, is
    empty or made of normal segments, the denormalizer of its [list]
    undoes its [fullPath] up to the leading slashes. *)
Theorem Webdav_denormalize_fullPath (this : Webdav.DriverWebDAV)
    (cwd p : string) :
  Webdav.root this <> "" ->
  cleanPath (stripLeadingSlashes p) = true ->
  Webdav.denormalize this cwd (Webdav.fullPath this p) = stripLeadingSlashes p.
Proof.
  intros Hroot Hclean. unfold Webdav.denormalize, Webdav.fullPath.
  now apply relative_joined.
Qed.

Lemma Webdav_denormalize_fullPath_witness :
  Webdav.denormalize {| Webdav.root := "files" |} "/srv/app"
    (Webdav.fullPath {| Webdav.root := "files" |} "/a/b.txt")
  = "a/b.txt".
Proof.
  apply (Webdav_denormalize_fullPath {| Webdav.root := "files" |} "/srv/app"
           "/a/b.txt").
  - simpl. discriminate.
  - vm_compute. reflexivity.
Defined.

Lemma isAbsolute_stripLeadingSlashes (x : string) :
  isAbsolute (stripLeadingSlashes x) = false.
Proof.
  induction x as [|c x IH]; [reflexivity|]. simpl.
  destruct (Ascii.eqb c "/") eqn:Hc; [exact IH | exact Hc].
Qed.

End NormalizerMore.

(** ** Rejections and listings, against any client *)

Section AdapterMore.
Import JS Storage Listing WebDAV NodePath Paths.
Context {St : Type} `{!Client St}.

Lemma exists_run (this : Index.DriverWebDAV) (f : string) (s : St) :
  run (Index.exists_ this f) s =
  match handle (stat (Index.fullPath this f)) s with
  | (inr _, s') => (inr true, s', [stat (Index.fullPath this f)])
  | (inl _, s') => (inr false, s', [stat (Index.fullPath this f)])
  end.
Proof.
  unfold Index.exists_. simpl.
  now destruct (handle (stat (Index.fullPath this f)) s) as [[e|r] s'].
Qed.

Lemma stat_rejected_run (this : Index.DriverWebDAV) (now : Z) (f : string)
    (s s' : St) (e : DavError) :
  handle (stat (Index.fullPath this f)) s = (inl e, s') ->
  run (Index.stat this now f) s = (inl e, s', [stat (Index.fullPath this f)]).
Proof.
  intros Hstat. unfold Index.stat. rewrite run_bind. run_await_step.
  now rewrite Hstat.
Qed.

(** X6: from the same state, [exists] answers [true] exactly when
    [stat] returns metadata, and [false] exactly when [stat] throws;
    what [stat] throws is what the client rejected the request with. *)
Theorem exists_agrees_with_stat (this : Index.DriverWebDAV) (now : Z)
    (f : string) (s : St) :
  ((run (Index.exists_ this f) s).1.1 = inr true
   <-> exists st, (run (Index.stat this now f) s).1.1 = inr st)
  /\ ((run (Index.exists_ this f) s).1.1 = inr false
      <-> exists e, (run (Index.stat this now f) s).1.1 = inl e
                    /\ (handle (stat (Index.fullPath this f)) s).1 = inl e).
Proof.
  rewrite exists_run.
  destruct (handle (stat (Index.fullPath this f)) s) as [[e|r] s'] eqn:Hstat.
  - rewrite (stat_rejected_run this now f s s' e Hstat). simpl. split.
    + split; [discriminate | intros [st Hst]; discriminate].
    + split; [eauto | reflexivity].
  - rewrite (stat_run this now f s s' r Hstat). simpl. split.
    + split; [eauto | reflexivity].
    + split; [discriminate | intros (e & He & _); discriminate].
Qed.

(** X7: [move], [copy], [delete], [write] and [read] each issue one
    request, on normalized paths, and their outcome is the outcome of
    that request: a rejection is rethrown as it is, nothing is retried. *)
Theorem single_request_outcome (this : Index.DriverWebDAV)
    (src dest f : string) (content : Readable) (s : St) :
  run (Index.move this src dest) s
  = (let '(r, s') := handle (moveFile (Index.fullPath this src)
                                      (Index.fullPath this dest)) s in
     (r, s', [moveFile (Index.fullPath this src) (Index.fullPath this dest)]))
  /\ run (Index.copy this src dest) s
     = (let '(r, s') := handle (copyFile (Index.fullPath this src)
                                         (Index.fullPath this dest)) s in
        (r, s', [copyFile (Index.fullPath this src) (Index.fullPath this dest)]))
  /\ run (Index.delete this f) s
     = (let '(r, s') := handle (deleteFile (Index.fullPath this f)) s in
        (r, s', [deleteFile (Index.fullPath this f)]))
  /\ run (Index.write this f content) s
     = (let '(r, s') := handle (putFileContents (Index.fullPath this f)
                                                (PutStream content)) s in
        (match r with inl e => inl e | inr _ => inr tt end, s',
         [putFileContents (Index.fullPath this f) (PutStream content)]))
  /\ run (Index.read this f None) s
     = (let '(r, s') := handle (createReadStream (Index.fullPath this f) None) s in
        (r, s', [createReadStream (Index.fullPath this f) None])).
Proof.
  unfold Index.move, Index.copy, Index.delete, Index.write, Index.read.
  rewrite run_bind. simpl.
  repeat split;
    match goal with |- context [handle ?q s] =>
      now destruct (handle q s) as [[e|v] s'] end.
Qed.

(** X8: when the listing request is rejected, [list] throws that
    rejection, after that one request, and yields nothing. *)
Theorem list_rejected (this : Index.DriverWebDAV) (cwd : string)
    (prefix : option string) (s s' : St) (e : DavError) :
  let remotePrefix :=
    Index.fullPath this (match prefix with Some p => p | None => "" end) in
  handle (getDirectoryContents remotePrefix true) s = (inl e, s') ->
  run (Index.list this cwd prefix) s
  = (inl e, s', [getDirectoryContents remotePrefix true]).
Proof.
  intros remotePrefix Hlist. unfold Index.list. fold remotePrefix.
  rewrite run_bind. run_await_step. now rewrite Hlist.
Qed.

Lemma list_run (this : Index.DriverWebDAV) (cwd : string)
    (prefix : option string) (s s' : St) (resp : Response (list FileStat)) :
  let remotePrefix :=
    Index.fullPath this (match prefix with Some p => p | None => "" end) in
  handle (getDirectoryContents remotePrefix true) s = (inr resp, s') ->
  run (Index.list this cwd prefix) s
  = (inr (Index.yields this cwd (payload resp)), s',
     [getDirectoryContents remotePrefix true]).
Proof.
  intros remotePrefix Hlist. unfold Index.list. fold remotePrefix.
  rewrite run_bind. run_await_step. rewrite Hlist. now destruct resp.
Qed.

Lemma yields_relative (this : Index.DriverWebDAV) (cwd : string)
    (contents : list FileStat) :
  Forall (fun y => isAbsolute y = false) (Index.yields this cwd contents).
Proof.
  induction contents as [|item rest IH]; [constructor|]. simpl.
  destruct (type item), (filename item); try exact IH.
  constructor; [apply isAbsolute_stripLeadingSlashes | exact IH].
Qed.

(** X9: whatever the backend reports, no path that [list] yields starts
    with a slash, and [list] yields at most one path per entry of the
    listing. *)
Theorem list_yields_relative_paths (this : Index.DriverWebDAV) (cwd : string)
    (prefix : option string) (s s' : St) (resp : Response (list FileStat)) :
  let remotePrefix :=
    Index.fullPath this (match prefix with Some p => p | None => "" end) in
  handle (getDirectoryContents remotePrefix true) s = (inr resp, s') ->
  exists ys : list string,
    (run (Index.list this cwd prefix) s).1.1 = inr ys
    /\ Forall (fun y => isAbsolute y = false) ys
    /\ (List.length ys <= List.length (payload resp))%nat.
Proof.
  intros remotePrefix Hlist.
  rewrite (list_run this cwd prefix s s' resp Hlist). simpl.
  eexists. split; [reflexivity|]. split; [apply yields_relative|].
  induction (payload resp) as [|item rest IH]; [reflexivity|]. simpl.
  destruct (type item), (filename item); simpl; lia.
Qed.

Lemma yields_round_trip (this : Index.DriverWebDAV) (cwd : string)
    (contents : list FileStat) (paths : list string) :
  Index.root this <> "" ->
  Forall2 (fun item p =>
             type item = file
             /\ filename item = Some (Index.fullPath this p)
             /\ cleanPath (stripLeadingSlashes p) = true) contents paths ->
  Index.yields this cwd contents = map stripLeadingSlashes paths.
Proof.
  intros Hroot Hall. induction Hall as [|item p rest ps (Hty & Hfn & Hclean) _ IH].
  - reflexivity.
  - simpl. rewrite Hty, Hfn, IH. f_equal.
    unfold Index.denormalize, Index.fullPath. now apply relative_joined.
Qed.

(** X10: under a non-empty root, when the backend lists as files the
    objects at the normalized forms of caller paths that are clean up to
    their leading slashes, [list] yields those caller paths, without
    the leading slashes and in the same order, whatever the prefix. *)
Theorem list_round_trip (this : Index.DriverWebDAV) (cwd : string)
    (prefix : option string) (s s' : St) (resp : Response (list FileStat))
    (paths : list string) :
  let remotePrefix :=
    Index.fullPath this (match prefix with Some p => p | None => "" end) in
  Index.root this <> "" ->
  handle (getDirectoryContents remotePrefix true) s = (inr resp, s') ->
  Forall2 (fun item p =>
             type item = file
             /\ filename item = Some (Index.fullPath this p)
             /\ cleanPath (stripLeadingSlashes p) = true)
          (payload resp) paths ->
  (run (Index.list this cwd prefix) s).1.1
  = inr (map stripLeadingSlashes paths).
Proof.
  intros remotePrefix Hroot Hlist Hall.
  rewrite (list_run this cwd prefix s s' resp Hlist). simpl.
  now rewrite (yields_round_trip this cwd (payload resp) paths Hroot Hall).
Qed.

End AdapterMore.

(** ** [writeChunk], against any client *)

Section WriteChunkMore.
Import JS Storage WebDAV.
Context {St : Type} `{!Client St}.
Context {ChunkedUploadContext : Type}.

(** The whole of [writeChunk]: the read, then the write of what was
    read, cut at the offset, followed by the chunk. *)
Lemma writeChunk_outcome (this : Index.DriverWebDAV) (f : string)
    (chunk : Readable) (offset : Z) (ctx : ChunkedUploadContext) (s : St) :
  let remotePath := Index.fullPath this f in
  run (Index.writeChunk this f chunk offset ctx) s =
  match handle (getFileContents remotePath "binary") s with
  | (inl e, s1) => (inl e, s1, [getFileContents remotePath "binary"])
  | (inr r, s1) =>
      let newContent :=
        subarray (Buffer_from (payload r)) 0 offset ++ drain chunk in
      match handle (putFileContents remotePath (PutBuffer newContent)) s1 with
      | (inl e, s2) =>
          (inl e, s2, [getFileContents remotePath "binary";
                       putFileContents remotePath (PutBuffer newContent)])
      | (inr _, s2) =>
          (inr (Buffer_length newContent), s2,
           [getFileContents remotePath "binary";
            putFileContents remotePath (PutBuffer newContent)])
      end
  end.
Proof.
  intros remotePath. unfold Index.writeChunk. fold remotePath.
  rewrite run_bind. run_await_step.
  destruct (handle (getFileContents remotePath "binary") s) as [[e|r] s1];
    [reflexivity|].
  assert (Hexisting :
    match match r with Envelope data => data | Plain plain => plain end with
    | RawString s0 => Buffer_from (RawString s0)
    | RawArrayBuffer b => Buffer_from (RawArrayBuffer b)
    | RawBuffer b => b
    end = Buffer_from (payload r)) by now destruct r as [[]|[]].
  rewrite Hexisting.
  change (Buffer_concat (subarray (Buffer_from (payload r)) 0 offset
                         :: map Buffer_from chunk))
    with (subarray (Buffer_from (payload r)) 0 offset ++ drain chunk).
  rewrite run_bind. run_await_step.
  now destruct (handle (putFileContents remotePath _) s1) as [[e|v] s2].
Qed.

(** X11: when the object cannot be read, [writeChunk] throws what the
    read was rejected with and issues no write: it never creates the
    object. *)
Theorem writeChunk_read_rejected (this : Index.DriverWebDAV) (f : string)
    (chunk : Readable) (offset : Z) (ctx : ChunkedUploadContext)
    (s s' : St) (e : DavError) :
  handle (getFileContents (Index.fullPath this f) "binary") s = (inl e, s') ->
  run (Index.writeChunk this f chunk offset ctx) s
  = (inl e, s', [getFileContents (Index.fullPath this f) "binary"]).
Proof. intros Hget. now rewrite writeChunk_outcome, Hget. Qed.

(** X12: when the write of the rebuilt object is rejected, [writeChunk]
    throws that rejection after the two requests and returns no size. *)
Theorem writeChunk_write_rejected (this : Index.DriverWebDAV) (f : string)
    (chunk : Readable) (offset : Z) (ctx : ChunkedUploadContext)
    (s s1 s2 : St) (r : Response Raw) (e : DavError) :
  let remotePath := Index.fullPath this f in
  let newContent := subarray (Buffer_from (payload r)) 0 offset ++ drain chunk in
  handle (getFileContents remotePath "binary") s = (inr r, s1) ->
  handle (putFileContents remotePath (PutBuffer newContent)) s1 = (inl e, s2) ->
  run (Index.writeChunk this f chunk offset ctx) s
  = (inl e, s2, [getFileContents remotePath "binary";
                 putFileContents remotePath (PutBuffer newContent)]).
Proof.
  intros remotePath newContent Hget Hput.
  rewrite writeChunk_outcome. fold remotePath. rewrite Hget.
  cbv zeta. fold newContent. now rewrite Hput.
Qed.

(** X13: only the bytes of the incoming stream matter, not how it is cut
    into fragments nor the kind of each fragment, and the upload
    context is ignored: two calls whose streams carry the same bytes
    behave alike on every client. *)
Theorem writeChunk_fragments_irrelevant (this : Index.DriverWebDAV)
    (f : string) (chunk chunk' : Readable) (offset : Z)
    (ctx ctx' : ChunkedUploadContext) (s : St) :
  drain chunk = drain chunk' ->
  run (Index.writeChunk this f chunk offset ctx) s
  = run (Index.writeChunk this f chunk' offset ctx') s.
Proof. intros Hsame. now rewrite !writeChunk_outcome, Hsame. Qed.

End WriteChunkMore.

(** ** Uploads and whole files, against a client that stores faithfully *)

Section StoreMore.
Import JS Storage WebDAV Files.
Context {St : Type} `{!Client St} `{!FaithfulStore St}.
Context {ChunkedUploadContext : Type}.

(** A negative end counts from the end of the buffer. *)
Lemma subarray_from_end (buf : Buffer) (offset : Z) :
  offset < 0 ->
  subarray buf 0 offset = take (Z.to_nat (Buffer_length buf + offset)) buf.
Proof.
  intros Hneg. unfold subarray, adjustOffset, Buffer_length.
  change (0 =? 0) with true. cbv iota. rewrite drop_0.
  destruct (Z.eqb_spec offset 0) as [|_]; [lia|].
  destruct (Z.ltb_spec offset 0) as [_|]; [|lia].
  rewrite (Z.add_comm offset).
  destruct (Z.ltb_spec 0 (Z.of_nat (List.length buf) + offset)) as [Hpos|Hle].
  - destruct (Z.ltb_spec 0 (Z.of_nat (List.length buf) + offset)) as [_|]; [|lia].
    now rewrite Z.sub_0_r.
  - change (0 <? 0) with false. cbv iota.
    now replace (Z.to_nat (Z.of_nat (List.length buf) + offset)) with 0%nat by lia.
Qed.

Lemma Buffer_length_take (buf : Buffer) (offset : Z) :
  0 <= offset <= Buffer_length buf ->
  Buffer_length (take (Z.to_nat offset) buf) = offset.
Proof. unfold Buffer_length. intros Hoff. rewrite length_take. lia. Qed.

(** [writeChunk] on an existing object, with what it leaves elsewhere. *)
Lemma writeChunk_run_frame (this : Index.DriverWebDAV) (f : string)
    (chunk : Readable) (offset : Z) (ctx : ChunkedUploadContext)
    (s : St) (old : Buffer) :
  let remotePath := Index.fullPath this f in
  let newContent := subarray old 0 offset ++ drain chunk in
  content s remotePath = Some old ->
  exists s' : St,
    run (Index.writeChunk this f chunk offset ctx) s
    = (inr (Buffer_length newContent), s',
       [getFileContents remotePath "binary";
        putFileContents remotePath (PutBuffer newContent)])
    /\ content s' remotePath = Some newContent
    /\ forall p', p' <> remotePath -> content s' p' = content s p'.
Proof.
  intros remotePath newContent Hold.
  destruct (getFileContents_stored s remotePath old Hold) as (r & Hget & Hbuf).
  destruct (putFileContents_stores s remotePath (PutBuffer newContent))
    as (s' & Hput & Hnew & Hframe).
  exists s'. split; [|split; [exact Hnew | exact Hframe]].
  rewrite writeChunk_outcome. fold remotePath. rewrite Hget. cbv zeta.
  rewrite Hbuf. fold newContent. now rewrite Hput.
Qed.

(** X14: an offset inside the existing object truncates it there: the
    object becomes its first [offset] bytes followed by the chunk, and
    [offset + len c] is returned. *)
Theorem writeChunk_truncates_at_offset (this : Index.DriverWebDAV) (f : string)
    (chunk : Readable) (offset : Z) (ctx : ChunkedUploadContext)
    (s : St) (old : Buffer) :
  content s (Index.fullPath this f) = Some old ->
  0 <= offset <= Buffer_length old ->
  exists (s' : St) (issued : list Request),
    run (Index.writeChunk this f chunk offset ctx) s
    = (inr (offset + Buffer_length (drain chunk)), s', issued)
    /\ content s' (Index.fullPath this f)
       = Some (take (Z.to_nat offset) old ++ drain chunk).
Proof.
  intros Hold Hoff.
  destruct (writeChunk_run_frame this f chunk offset ctx s old Hold)
    as (s' & Hrun & Hc & _).
  rewrite subarray_from_start in Hrun, Hc by lia.
  rewrite Buffer_length_app, Buffer_length_take in Hrun by lia. eauto.
Qed.

(** X15: a negative offset is not refused: it counts from the end of the
    existing object, so the last [-offset] bytes are dropped (all of
    them when there are fewer) before the chunk is appended. *)
Theorem writeChunk_negative_offset_from_end (this : Index.DriverWebDAV)
    (f : string) (chunk : Readable) (offset : Z) (ctx : ChunkedUploadContext)
    (s : St) (old : Buffer) :
  content s (Index.fullPath this f) = Some old ->
  offset < 0 ->
  exists (s' : St) (issued : list Request),
    run (Index.writeChunk this f chunk offset ctx) s
    = (inr (Z.max 0 (Buffer_length old + offset) + Buffer_length (drain chunk)),
       s', issued)
    /\ content s' (Index.fullPath this f)
       = Some (take (Z.to_nat (Buffer_length old + offset)) old ++ drain chunk).
Proof.
  intros Hold Hneg.
  destruct (writeChunk_run_frame this f chunk offset ctx s old Hold)
    as (s' & Hrun & Hc & _).
  rewrite subarray_from_end in Hrun, Hc by lia.
  rewrite Buffer_length_app in Hrun.
  assert (Hlen : Buffer_length (take (Z.to_nat (Buffer_length old + offset)) old)
                 = Z.max 0 (Buffer_length old + offset)).
  { unfold Buffer_length. rewrite length_take. lia. }
  rewrite Hlen in Hrun. eauto.
Qed.

(** X16: sending the same chunk again at the same offset, inside the
    object as it was before the first attempt, changes nothing: the
    second call returns the same size and leaves the same object. *)
Theorem writeChunk_retry_idempotent (this : Index.DriverWebDAV) (f : string)
    (chunk : Readable) (offset : Z) (ctx : ChunkedUploadContext)
    (s : St) (old : Buffer) :
  content s (Index.fullPath this f) = Some old ->
  0 <= offset <= Buffer_length old ->
  exists (s1 s2 : St) (n : Z) (issued1 issued2 : list Request),
    run (Index.writeChunk this f chunk offset ctx) s = (inr n, s1, issued1)
    /\ run (Index.writeChunk this f chunk offset ctx) s1 = (inr n, s2, issued2)
    /\ content s2 (Index.fullPath this f) = content s1 (Index.fullPath this f).
Proof.
  intros Hold Hoff.
  destruct (writeChunk_run_frame this f chunk offset ctx s old Hold)
    as (s1 & Hrun1 & Hc1 & _).
  destruct (writeChunk_run_frame this f chunk offset ctx s1 _ Hc1)
    as (s2 & Hrun2 & Hc2 & _).
  assert (Hsame : subarray (subarray old 0 offset ++ drain chunk) 0 offset
                  = subarray old 0 offset).
  { rewrite !subarray_from_start by lia.
    unfold Buffer_length in Hoff.
    rewrite take_app_le by (rewrite length_take; lia).
    rewrite take_take. f_equal. lia. }
  rewrite Hsame in Hrun2, Hc2.
  do 5 eexists.
  split; [exact Hrun1|]. split; [exact Hrun2|]. now rewrite Hc1, Hc2.
Qed.

(** X17: whatever the offset, the size [writeChunk] returns is the size
    a [stat] made next reports; it is at least the length of the chunk
    and at most the old length plus the length of the chunk. *)
Theorem writeChunk_returns_stored_size (this : Index.DriverWebDAV) (f : string)
    (chunk : Readable) (offset : Z) (ctx : ChunkedUploadContext) (now : Z)
    (s : St) (old : Buffer) :
  content s (Index.fullPath this f) = Some old ->
  exists (s1 s2 : St) (n : Z) (st : Stat) (issued1 issued2 : list Request),
    run (Index.writeChunk this f chunk offset ctx) s = (inr n, s1, issued1)
    /\ Buffer_length (drain chunk) <= n
       <= Buffer_length old + Buffer_length (drain chunk)
    /\ run (Index.stat this now f) s1 = (inr st, s2, issued2)
    /\ Storage.size st = n.
Proof.
  intros Hold.
  destruct (writeChunk_run_frame this f chunk offset ctx s old Hold)
    as (s1 & Hrun & Hc & _).
  destruct (stat_stored s1 _ _ Hc) as (r & Hstat & Hsize).
  pose proof (stat_run this now f s1 s1 r Hstat) as Hrun2. rewrite Hsize in Hrun2.
  do 6 eexists.
  split; [exact Hrun|]. split; [|split; [exact Hrun2 | reflexivity]].
  rewrite Buffer_length_app.
  assert (0 <= Buffer_length (subarray old 0 offset) <= Buffer_length old).
  { unfold Buffer_length.
    destruct (Z.ltb_spec offset 0).
    - rewrite subarray_from_end by lia. rewrite length_take. lia.
    - rewrite subarray_from_start by lia. rewrite length_take. lia. }
  lia.
Qed.

(** X18: [writeChunk] changes the object at the normalized path of its
    file and no other object. *)
Theorem writeChunk_other_objects_untouched (this : Index.DriverWebDAV)
    (f : string) (chunk : Readable) (offset : Z) (ctx : ChunkedUploadContext)
    (s : St) (old : Buffer) :
  content s (Index.fullPath this f) = Some old ->
  exists (s' : St) (n : Z) (issued : list Request),
    run (Index.writeChunk this f chunk offset ctx) s = (inr n, s', issued)
    /\ forall p', p' <> Index.fullPath this f -> content s' p' = content s p'.
Proof.
  intros Hold.
  destruct (writeChunk_run_frame this f chunk offset ctx s old Hold)
    as (s' & Hrun & _ & Hframe).
  eauto.
Qed.

End StoreMore.

(** ** Whole uploads and whole files *)

Section Lifecycle.
Import JS Storage WebDAV Files Host.
Context {St : Type} `{!Client St} `{!FaithfulStore St} `{!FaithfulFiles St}.
Context {ChunkedUploadContext : Type}.

Lemma uploadChunks_run (this : Index.DriverWebDAV) (f : string)
    (chunks : list Readable) (ctx : ChunkedUploadContext) (s : St)
    (old : Buffer) :
  content s (Index.fullPath this f) = Some old ->
  exists (s' : St) (issued : list Request),
    run (uploadChunks this f chunks (Buffer_length old) ctx) s
    = (inr (Buffer_length (old ++ List.concat (map drain chunks))), s', issued)
    /\ content s' (Index.fullPath this f)
       = Some (old ++ List.concat (map drain chunks)).
Proof.
  revert s old. induction chunks as [|chunk rest IH]; intros s old Hold.
  - exists s, []. simpl. rewrite app_nil_r. split; [reflexivity | exact Hold].
  - destruct (writeChunk_run this f chunk (Buffer_length old) ctx s old Hold)
      as (s1 & Hrun1 & Hc1).
    rewrite subarray_all in Hrun1, Hc1 by lia.
    destruct (IH s1 _ Hc1) as (s2 & issued & Hrun2 & Hc2).
    exists s2. eexists.
    change (uploadChunks this f (chunk :: rest) (Buffer_length old) ctx)
      with (Index.writeChunk this f chunk (Buffer_length old) ctx
            ≫= fun size => uploadChunks this f rest size ctx).
    rewrite run_bind, Hrun1, Hrun2. simpl. rewrite <- app_assoc in *.
    split; [reflexivity | exact Hc2].
Qed.

(** X19: a whole upload.  After [createChunkedUpload], chunks sent in
    order, each at the size the call before returned, and
    [finishChunkedUpload], the object is the concatenation of the
    chunks, the last size returned is its length, and so is the size
    [stat] reports. *)
Theorem upload_lifecycle (this : Index.DriverWebDAV) (f : string)
    (chunks : list Readable) (ctx : ChunkedUploadContext) (now : Z) (s : St) :
  let whole := List.concat (map drain chunks) in
  exists (s' : St) (st : Stat) (issued : list Request),
    run (ctx' ← Index.createChunkedUpload this f ctx;
         total ← uploadChunks this f chunks 0 ctx';
         _ ← Index.finishChunkedUpload this f ctx';
         st ← Index.stat this now f;
         mret (total, st)) s
    = (inr (Buffer_length whole, st), s', issued)
    /\ Storage.size st = Buffer_length whole
    /\ content s' (Index.fullPath this f) = Some whole.
Proof.
  intros whole.
  destruct (putFileContents_stores s (Index.fullPath this f)
              (PutStream (Readable_from Buffer_alloc0)))
    as (s0 & Hput & Hnew & _).
  change (putBytes (PutStream (Readable_from Buffer_alloc0))) with (@nil byte) in Hnew.
  destruct (uploadChunks_run this f chunks ctx s0 [] Hnew)
    as (s1 & issued & Hup & Hc).
  change (Buffer_length []) with 0 in Hup. simpl in Hup, Hc. fold whole in Hup, Hc.
  destruct (stat_stored s1 _ _ Hc) as (r & Hstat & Hsize).
  pose proof (stat_run this now f s1 s1 r Hstat) as Hrun. rewrite Hsize in Hrun.
  do 3 eexists. split; [|split; [|exact Hc]].
  - assert (Hcreate : run (Index.createChunkedUpload this f ctx) s
                      = (inr ctx, s0,
                         [putFileContents (Index.fullPath this f)
                            (PutStream (Readable_from Buffer_alloc0))])).
    { unfold Index.createChunkedUpload, Index.write.
      rewrite !run_bind. run_await_step. now rewrite Hput. }
    rewrite run_bind, Hcreate. cbv beta iota zeta.
    rewrite run_bind, Hup. cbv beta iota zeta.
    rewrite run_bind.
    change (run (Index.finishChunkedUpload this f ctx) s1)
      with (@inr DavError unit tt, s1, @nil Request).
    cbv beta iota zeta. rewrite run_bind, Hrun. reflexivity.
  - reflexivity.
Qed.

(** X20: [write] replaces the object by the bytes of the stream,
    whatever was there before, and a [stat] made next reports their
    number. *)
Theorem write_replaces_object (this : Index.DriverWebDAV) (f : string)
    (stream : Readable) (now : Z) (s : St) :
  exists (s' s'' : St) (st : Stat) (issued : list Request),
    run (Index.write this f stream) s
    = (inr tt, s', [putFileContents (Index.fullPath this f) (PutStream stream)])
    /\ content s' (Index.fullPath this f) = Some (drain stream)
    /\ run (Index.stat this now f) s' = (inr st, s'', issued)
    /\ Storage.size st = Buffer_length (drain stream).
Proof.
  destruct (putFileContents_stores s (Index.fullPath this f) (PutStream stream))
    as (s' & Hput & Hnew & _).
  destruct (stat_stored s' _ _ Hnew) as (r & Hstat & Hsize).
  pose proof (stat_run this now f s' s' r Hstat) as Hrun. rewrite Hsize in Hrun.
  do 4 eexists. split; [|split; [exact Hnew | split; [exact Hrun | reflexivity]]].
  unfold Index.write. rewrite run_bind. run_await_step. now rewrite Hput.
Qed.

(** X21: [deleteChunkedUpload] on an upload that has an object removes
    it: the object is gone and an [exists] made next answers [false]. *)
Theorem deleteChunkedUpload_removes (this : Index.DriverWebDAV) (f : string)
    (ctx : ChunkedUploadContext) (s : St) (c : Buffer) :
  content s (Index.fullPath this f) = Some c ->
  exists (s' : St),
    run (Index.deleteChunkedUpload this f ctx) s
    = (inr tt, s', [deleteFile (Index.fullPath this f)])
    /\ content s' (Index.fullPath this f) = None
    /\ run (Index.exists_ this f) s'
       = (inr false, s', [stat (Index.fullPath this f)]).
Proof.
  intros Hc.
  destruct (deleteFile_removes s _ _ Hc) as (s' & Hdel & Hgone & _).
  destruct (stat_missing s' _ Hgone) as (e & Hstat).
  exists s'. split; [|split; [exact Hgone|]].
  - unfold Index.deleteChunkedUpload, Index.delete. run_await_step.
    now rewrite Hdel.
  - rewrite exists_run. now rewrite Hstat.
Qed.

(** X22: [move] between caller paths that differ beyond one leading
    slash carries the object to the destination and leaves none at the
    source. *)
Theorem move_carries_object (this : Index.DriverWebDAV) (src dest : string)
    (s : St) (c : Buffer) :
  content s (Index.fullPath this src) = Some c ->
  stripLeadingSlash src <> stripLeadingSlash dest ->
  exists (s' : St),
    run (Index.move this src dest) s
    = (inr tt, s',
       [moveFile (Index.fullPath this src) (Index.fullPath this dest)])
    /\ content s' (Index.fullPath this dest) = Some c
    /\ content s' (Index.fullPath this src) = None.
Proof.
  intros Hc Hne.
  destruct (moveFile_moves s _ (Index.fullPath this dest) _ Hc)
    as (s' & Hmove & Hdest & Hsrc).
  exists s'. split; [|split; [exact Hdest|]].
  - unfold Index.move. run_await_step. now rewrite Hmove.
  - apply Hsrc. unfold Index.fullPath. intros Heq.
    apply String.app_inj in Heq. apply String.app_inj in Heq. contradiction.
Qed.

(** X23: [copy] puts the content of the source at the destination and
    keeps it at the source. *)
Theorem copy_duplicates_object (this : Index.DriverWebDAV) (src dest : string)
    (s : St) (c : Buffer) :
  content s (Index.fullPath this src) = Some c ->
  exists (s' : St),
    run (Index.copy this src dest) s
    = (inr tt, s',
       [copyFile (Index.fullPath this src) (Index.fullPath this dest)])
    /\ content s' (Index.fullPath this dest) = Some c
    /\ content s' (Index.fullPath this src) = Some c.
Proof.
  intros Hc.
  destruct (copyFile_copies s _ (Index.fullPath this dest) _ Hc)
    as (s' & Hcopy & Hdest & Hframe).
  exists s'. split; [|split; [exact Hdest|]].
  - unfold Index.copy. run_await_step. now rewrite Hcopy.
  - destruct (decide (Index.fullPath this src = Index.fullPath this dest))
      as [Heq|Hne].
    + now rewrite Heq.
    + now rewrite Hframe.
Qed.

End Lifecycle.

(** ** The plain driver *)

Section PlainDriver.
Import JS Storage WebDAV NodePath Paths.
Context {St : Type} `{!Client St}.

(** X24: [exists] of [webdav.ts] issues one [stat] on the normalized
    path and never throws: it answers [true] exactly when the request
    resolves and [false] whatever it is rejected with. *)
Theorem Webdav_exists_never_throws (this : Webdav.DriverWebDAV) (f : string)
    (s : St) :
  let answer := handle (stat (Webdav.fullPath this f)) s in
  exists b : bool,
    run (Webdav.exists_ this f) s
    = (inr b, answer.2, [stat (Webdav.fullPath this f)])
    /\ (b = true <-> exists r, answer.1 = inr r)
    /\ (forall e, answer.1 = inl e -> b = false).
Proof.
  unfold Webdav.exists_. simpl.
  destruct (handle (stat (Webdav.fullPath this f)) s) as [[e|r] s']; simpl.
  - exists false. split; [reflexivity|]. split.
    + split; [discriminate | intros [r Hr]; discriminate].
    + reflexivity.
  - exists true. split; [reflexivity|]. split.
    + split; [eauto | reflexivity].
    + discriminate.
Qed.

(** X25: [list] of [webdav.ts], under a non-empty root: when the backend
    lists as files the objects at the normalized forms of caller paths
    that are clean up to their leading slashes, those caller paths are
    yielded, without the leading slashes and in the same order. *)
Theorem Webdav_list_round_trip (this : Webdav.DriverWebDAV) (cwd : string)
    (prefix : option string) (s s' : St) (resp : Response (list FileStat))
    (paths : list string) :
  let remotePrefix :=
    Webdav.fullPath this (match prefix with Some p => p | None => "" end) in
  Webdav.root this <> "" ->
  handle (getDirectoryContents remotePrefix true) s = (inr resp, s') ->
  Forall2 (fun item p =>
             type item = file
             /\ filename item = Some (Webdav.fullPath this p)
             /\ cleanPath (stripLeadingSlashes p) = true)
          (payload resp) paths ->
  (run (Webdav.list this cwd prefix) s).1.1
  = inr (map stripLeadingSlashes paths).
Proof.
  destruct this as [r]. intros remotePrefix Hroot Hlist Hall.
  rewrite <- same_list.
  rewrite (list_run {| Index.root := r |} cwd prefix s s' resp Hlist). simpl.
  now rewrite (yields_round_trip {| Index.root := r |} cwd (payload resp) paths
                 Hroot Hall).
Qed.

End PlainDriver.

(** ** The further properties at concrete inputs *)

Section InstancesMore.
Import JS Storage WebDAV Files Host Fixtures.

Lemma list_rejected_witness :
  run (Index.list uploads "/srv/app" (Some "docs")) Canned.offline
  = (inl (NetworkError "ECONNREFUSED"), Canned.offline,
     [getDirectoryContents "/uploads/docs" true]).
Proof.
  apply (list_rejected uploads "/srv/app" (Some "docs") Canned.offline
           Canned.offline (NetworkError "ECONNREFUSED")).
  reflexivity.
Defined.

Lemma list_yields_relative_paths_witness :
  exists ys : list string,
    (run (Index.list uploads "/srv/app" None) tree).1.1 = inr ys
    /\ Forall (fun y => NodePath.isAbsolute y = false) ys
    /\ (List.length ys <= 4)%nat.
Proof.
  apply (list_yields_relative_paths uploads "/srv/app" None tree tree
           (Envelope [entry file "/uploads/a.txt";
                      entry directory "/uploads/docs";
                      entry file "/uploads/docs/b.txt";
                      entry file "/uploads/docs/c.txt"])).
  reflexivity.
Defined.

Lemma list_round_trip_witness :
  let files :=
    {| Canned.statAnswer := inl NotFound;
       Canned.listing :=
         inr (Plain [entry file "/uploads/a.txt";
                     entry file "/uploads/docs/b.txt"]) |} in
  (run (Index.list uploads "/srv/app" (Some "docs")) files).1.1
  = inr ["a.txt"; "docs/b.txt"]%string.
Proof.
  intros files.
  apply (list_round_trip uploads "/srv/app" (Some "docs") files files
           (Plain [entry file "/uploads/a.txt"; entry file "/uploads/docs/b.txt"])
           ["a.txt"; "/docs/b.txt"]%string).
  - simpl. discriminate.
  - reflexivity.
  - repeat constructor.
Defined.

Lemma Webdav_list_round_trip_witness :
  let files :=
    {| Canned.statAnswer := inl NotFound;
       Canned.listing :=
         inr (Plain [entry file "/uploads/a.txt";
                     entry file "/uploads/docs/b.txt"]) |} in
  (run (Webdav.list {| Webdav.root := "/uploads/" |} "/srv/app" None) files).1.1
  = inr ["a.txt"; "docs/b.txt"]%string.
Proof.
  intros files.
  apply (Webdav_list_round_trip {| Webdav.root := "/uploads/" |} "/srv/app" None
           files files
           (Plain [entry file "/uploads/a.txt"; entry file "/uploads/docs/b.txt"])
           ["a.txt"; "/docs/b.txt"]%string).
  - simpl. discriminate.
  - reflexivity.
  - repeat constructor.
Defined.

Lemma writeChunk_read_rejected_witness :
  run (Index.writeChunk uploads "video.bin" chunkA 0 tt) Canned.offline
  = (inl (NetworkError "ECONNREFUSED"), Canned.offline,
     [getFileContents "/uploads/video.bin" "binary"]).
Proof.
  apply (writeChunk_read_rejected uploads "video.bin" chunkA 0 tt
           Canned.offline Canned.offline (NetworkError "ECONNREFUSED")).
  reflexivity.
Defined.

Lemma writeChunk_write_rejected_witness :
  run (Index.writeChunk uploads "video.bin" chunkB 2 tt) ("abc"%string : ReadOnly.State)
  = (inl Forbidden, "abc"%string,
     [getFileContents "/uploads/video.bin" "binary";
      putFileContents "/uploads/video.bin" (PutBuffer [x61; x62; xff]%byte)]).
Proof.
  apply (writeChunk_write_rejected uploads "video.bin" chunkB 2 tt
           ("abc"%string : ReadOnly.State) "abc"%string "abc"%string
           (Plain (RawString "abc")) Forbidden).
  - reflexivity.
  - reflexivity.
Defined.

Lemma writeChunk_fragments_irrelevant_witness :
  run (Index.writeChunk uploads "video.bin" [RawString "hi"] 3 tt) threeBytes
  = run (Index.writeChunk uploads "video.bin"
           [RawBuffer [x68]%byte; RawArrayBuffer [x69]%byte] 3 tt) threeBytes.
Proof.
  apply (writeChunk_fragments_irrelevant uploads "video.bin" [RawString "hi"]
           [RawBuffer [x68]%byte; RawArrayBuffer [x69]%byte] 3 tt tt threeBytes).
  reflexivity.
Defined.

Lemma writeChunk_truncates_at_offset_witness :
  exists (s' : MemDav.State) (issued : list Request),
    run (Index.writeChunk uploads "video.bin" chunkB 1 tt) threeBytes
    = (inr 2, s', issued)
    /\ content s' "/uploads/video.bin" = Some [x01; xff]%byte.
Proof.
  apply (writeChunk_truncates_at_offset uploads "video.bin" chunkB 1 tt
           threeBytes [x01; x02; x03]%byte).
  - reflexivity.
  - vm_compute. split; discriminate.
Defined.

Lemma writeChunk_negative_offset_from_end_witness :
  exists (s' : MemDav.State) (issued : list Request),
    run (Index.writeChunk uploads "video.bin" chunkB (-1) tt) threeBytes
    = (inr 3, s', issued)
    /\ content s' "/uploads/video.bin" = Some [x01; x02; xff]%byte.
Proof.
  apply (writeChunk_negative_offset_from_end uploads "video.bin" chunkB (-1) tt
           threeBytes [x01; x02; x03]%byte).
  - reflexivity.
  - reflexivity.
Defined.

Lemma writeChunk_retry_idempotent_witness :
  exists (s1 s2 : MemDav.State) (n : Z) (issued1 issued2 : list Request),
    run (Index.writeChunk uploads "video.bin" chunkA 2 tt) threeBytes
    = (inr n, s1, issued1)
    /\ run (Index.writeChunk uploads "video.bin" chunkA 2 tt) s1
       = (inr n, s2, issued2)
    /\ content s2 "/uploads/video.bin" = content s1 "/uploads/video.bin".
Proof.
  apply (writeChunk_retry_idempotent uploads "video.bin" chunkA 2 tt
           threeBytes [x01; x02; x03]%byte).
  - reflexivity.
  - vm_compute. split; discriminate.
Defined.

Lemma writeChunk_returns_stored_size_witness :
  exists (s1 s2 : MemDav.State) (n : Z) (st : Stat)
         (issued1 issued2 : list Request),
    run (Index.writeChunk uploads "video.bin" chunkA 7 tt) threeBytes
    = (inr n, s1, issued1)
    /\ 4 <= n <= 3 + 4
    /\ run (Index.stat uploads 1700000000000 "video.bin") s1
       = (inr st, s2, issued2)
    /\ Storage.size st = n.
Proof.
  apply (writeChunk_returns_stored_size uploads "video.bin" chunkA 7 tt
           1700000000000 threeBytes [x01; x02; x03]%byte).
  reflexivity.
Defined.

Lemma writeChunk_other_objects_untouched_witness :
  exists (s' : MemDav.State) (n : Z) (issued : list Request),
    run (Index.writeChunk uploads "video.bin" chunkA 3 tt) threeBytes
    = (inr n, s', issued)
    /\ forall p', p' <> "/uploads/video.bin"%string ->
                  content s' p' = content threeBytes p'.
Proof.
  apply (writeChunk_other_objects_untouched uploads "video.bin" chunkA 3 tt
           threeBytes [x01; x02; x03]%byte).
  reflexivity.
Defined.

Lemma upload_lifecycle_witness :
  exists (s' : MemDav.State) (st : Stat) (issued : list Request),
    run (ctx' ← Index.createChunkedUpload uploads "video.bin" tt;
         total ← uploadChunks uploads "video.bin" [chunkA; chunkB] 0 ctx';
         _ ← Index.finishChunkedUpload uploads "video.bin" ctx';
         st ← Index.stat uploads 1700000000000 "video.bin";
         mret (total, st)) threeBytes
    = (inr (5, st), s', issued)
    /\ Storage.size st = 5
    /\ content s' "/uploads/video.bin" = Some [x0a; x0b; x68; x69; xff]%byte.
Proof.
  exact (upload_lifecycle uploads "video.bin" [chunkA; chunkB] tt
           1700000000000 threeBytes).
Defined.

Lemma deleteChunkedUpload_removes_witness :
  exists (s' : MemDav.State),
    run (Index.deleteChunkedUpload uploads "video.bin" tt) threeBytes
    = (inr tt, s', [deleteFile "/uploads/video.bin"])
    /\ content s' "/uploads/video.bin" = None
    /\ run (Index.exists_ uploads "video.bin") s'
       = (inr false, s', [stat "/uploads/video.bin"]).
Proof.
  apply (deleteChunkedUpload_removes uploads "video.bin" tt threeBytes
           [x01; x02; x03]%byte).
  reflexivity.
Defined.

Lemma move_carries_object_witness :
  exists (s' : MemDav.State),
    run (Index.move uploads "video.bin" "/final/video.bin") threeBytes
    = (inr tt, s', [moveFile "/uploads/video.bin" "/uploads/final/video.bin"])
    /\ content s' "/uploads/final/video.bin" = Some [x01; x02; x03]%byte
    /\ content s' "/uploads/video.bin" = None.
Proof.
  apply (move_carries_object uploads "video.bin" "/final/video.bin" threeBytes
           [x01; x02; x03]%byte).
  - reflexivity.
  - simpl. discriminate.
Defined.

Lemma copy_duplicates_object_witness :
  exists (s' : MemDav.State),
    run (Index.copy uploads "video.bin" "backup.bin") threeBytes
    = (inr tt, s', [copyFile "/uploads/video.bin" "/uploads/backup.bin"])
    /\ content s' "/uploads/backup.bin" = Some [x01; x02; x03]%byte
    /\ content s' "/uploads/video.bin" = Some [x01; x02; x03]%byte.
Proof.
  apply (copy_duplicates_object uploads "video.bin" "backup.bin" threeBytes
           [x01; x02; x03]%byte).
  reflexivity.
Defined.

End InstancesMore.
